(** * Campus Connect: the real-time chat pipeline of main.py

    A shallow embedding of the chat server of [main.py] and of the
    [messages] table of [database.py]:

    - [moderate_message], the two-stage moderation gate;
    - [ConnectionManager] with [connect], [disconnect] and [broadcast];
    - [websocket_endpoint], the per-connection receive loop with its
      [try / except WebSocketDisconnect / finally] frame;
    - [search_messages], the [ilike] query over the stored messages.

    Python exceptions are results of an error-and-state monad over the
    server's world: the manager's list of connections, the module-level
    list [chat_messages], the [messages] table and the database session.
    What the environment decides (the next inbound frame, the clock, whether
    a channel still takes a send, whether the commit goes through) is read
    from a record [Env], one per iteration of the receive loop.

    Scope of the model:
    - text is a string of 8-bit characters and [lower] folds the ASCII
      letters, as SQLite's [lower] does and as [str.lower] does on ASCII;
      where SQLite measures a value in bytes, a character stands for the
      code point of its number and takes one byte of UTF-8 below 128 and
      two from there on;
    - the classifier and [datetime.isoformat] are parameters; scores are
      binary64 floats, compared as Python compares them;
    - the [messages] table is the list of its rows in rowid order, the order
      in which SQLite scans it for a query without ORDER BY;
    - one session runs at a time: an iteration of the receive loop is not
      interleaved with the iterations of other sessions;
    - the trace of events is ghost state: it records calls and deliveries in
      program order and is read by no code; the one reader is the
      environment, where a websocket's handshake state is told by whether
      the trace holds its accept. *)

From Stdlib Require Import List String Ascii Bool Arith NArith Lia Sorted PrimFloat.
Import ListNotations.
Open Scope string_scope.
Open Scope list_scope.
Set Warnings "-register-all,-inexact-float".

(* ================================================================== *)
(** ** Strings as Python uses them here *)

(** [str.lower()] on ASCII text: the letters A-Z move to a-z. *)
Definition lower_ascii (c : ascii) : ascii :=
  let n := nat_of_ascii c in
  if Nat.leb 65 n && Nat.leb n 90 then ascii_of_nat (n + 32) else c.

Fixpoint lower (s : string) : string :=
  match s with
  | EmptyString => EmptyString
  | String c rest => String (lower_ascii c) (lower rest)
  end.

(** [word in text]: [word] occurs in [text] as a contiguous substring. *)
Fixpoint str_in (word text : string) : bool :=
  if String.prefix word text then true
  else match text with
       | EmptyString => false
       | String _ rest => str_in word rest
       end.

(* ================================================================== *)
(** ** Values on the wire *)

(** What [receive_json] can hand back: any JSON value.  An object is the
    Python dict the decoder built, as its list of items. *)
Inductive json : Type :=
| JNull
| JBool (b : bool)
| JInt (n : nat)
| JFloat (f : float)
| JStr (s : string)
| JArr (items : list json)
| JObj (fields : list (string * json)).

(** [d.get(key, default)] on a dict given by its items. *)
Fixpoint dict_get {V : Type} (d : list (string * V)) (key : string) : option V :=
  match d with
  | [] => None
  | (k, v) :: rest => if String.eqb k key then Some v else dict_get rest key
  end.

Definition WebSocket := nat.
Definition datetime := nat.

(** The dict [message_entry] of the endpoint (and the shape of a search
    result). *)
Record message_entry : Type := mkEntry {
  sender : string;
  content : string;
  timestamp : string
}.

(** What [send_json] is given: the feedback dict or a message entry. *)
Inductive wire : Type :=
| WError (detail : string)
| WMessage (entry : message_entry).

(** database.py, class [Message]: a row of table [messages]. *)
Module Message.
Record t : Type := mk {
  id : nat;
  sender : string;
  content : string;
  timestamp : datetime
}.
End Message.

(** A [Message] object before the commit gives it an id. *)
Record new_message : Type := mkNew {
  new_sender : string;
  new_content : string;
  new_timestamp : datetime
}.

Record user : Type := mkUser {
  username : string;
  full_name : string;
  password : option string
}.

(** The classifier's answer, [result[0]] of the pipeline. *)
Record sentiment : Type := mkSentiment {
  label : string;
  score : float
}.

(* ================================================================== *)
(** ** Exceptions, results and the world *)

Inductive exn : Type :=
| WebSocketDisconnect
| RuntimeError
| JSONDecodeError
| AttributeError
| ValueError
| SQLAlchemyError
| PipelineError
| HTTPException (status_code : nat).

(** The result of running a piece of the server: a value, a raised exception,
    or [Blocked] when the coroutine is suspended in [receive_json] with no
    frame there yet (the end of the script of inbound frames). *)
Inductive result (A : Type) : Type :=
| Ok (a : A)
| Raise (e : exn)
| Blocked.
Arguments Ok {A} a.
Arguments Raise {A} e.
Arguments Blocked {A}.

(** Effects in program order. *)
Inductive event : Type :=
| EvAccept (ws : WebSocket)
| EvClose (ws : WebSocket) (code : nat)
| EvReceive (ws : WebSocket)
| EvPipeline (text : string)
| EvSent (ws : WebSocket) (m : wire)
| EvSendFailed (ws : WebSocket) (m : wire) (e : exn)
| EvChatAppend (entry : message_entry)
| EvSessionLocal
| EvDbAdd (row : new_message)
| EvDbCommit (ok : bool)
| EvDbRefresh (ok : bool)
| EvDbClose
| EvBroadcast (entry : message_entry).

Record World : Type := mkWorld {
  active_connections : list WebSocket;   (* manager.active_connections *)
  chat_messages : list message_entry;    (* the module-level list *)
  messages : list Message.t;             (* table "messages", in rowid order *)
  db_new : list new_message;             (* added to the session, not committed *)
  db_open : bool;                        (* the endpoint's session *)
  trace : list event
}.

Definition log_all (evs : list event) (w : World) : World :=
  mkWorld (active_connections w) (chat_messages w) (messages w)
          (db_new w) (db_open w) (trace w ++ evs).

Definition log (e : event) (w : World) : World := log_all [e] w.

Definition set_connections (l : list WebSocket) (w : World) : World :=
  mkWorld l (chat_messages w) (messages w) (db_new w) (db_open w) (trace w).

Definition set_chat_messages (l : list message_entry) (w : World) : World :=
  mkWorld (active_connections w) l (messages w) (db_new w) (db_open w) (trace w).

Definition set_db (rows : list Message.t) (new : list new_message)
    (open : bool) (w : World) : World :=
  mkWorld (active_connections w) (chat_messages w) rows new open (trace w).

(** What the environment answers during one iteration of the loop. *)
Record Env : Type := mkEnv {
  incoming : result json;             (* what receive_json yields *)
  utcnow : datetime;                  (* datetime.datetime.utcnow() *)
  channel : WebSocket -> option exn;  (* None: a send is delivered *)
  commit_fault : option exn;          (* Some e: db.commit() raises e *)
  refresh_fault : option exn          (* Some e: db.refresh() raises e *)
}.

(** The monad of the server's code. *)
Definition M (A : Type) : Type := World -> result A * World.

Definition ret {A : Type} (a : A) : M A := fun w => (Ok a, w).

Definition raise {A : Type} (e : exn) : M A := fun w => (Raise e, w).

Definition bind {A B : Type} (m : M A) (k : A -> M B) : M B :=
  fun w =>
    match m w with
    | (Ok a, w') => k a w'
    | (Raise e, w') => (Raise e, w')
    | (Blocked, w') => (Blocked, w')
    end.

Definition lift {A : Type} (r : result A) : M A := fun w => (r, w).

Definition emit (e : event) : M unit := fun w => (Ok tt, log e w).

Definition modify (f : World -> World) : M unit := fun w => (Ok tt, f w).

Definition gets {A : Type} (f : World -> A) : M A := fun w => (Ok (f w), w).

Declare Scope server_scope.
Delimit Scope server_scope with server.
Notation "x <- m ;; k" := (bind m (fun x => k))
  (at level 61, m at next level, right associativity) : server_scope.
Notation "m ;; k" := (bind m (fun _ => k))
  (at level 61, right associativity) : server_scope.
Open Scope server_scope.

(** [try: body except WebSocketDisconnect: handler]. *)
Definition try_except_disconnect {A : Type} (body handler : M A) : M A :=
  fun w =>
    match body w with
    | (Raise WebSocketDisconnect, w') => handler w'
    | other => other
    end.

(** [try: body finally: cleanup].  A suspended body has not left the
    [try] block, so the cleanup has not run. *)
Definition try_finally {A : Type} (body : M A) (cleanup : M unit) : M A :=
  fun w =>
    match body w with
    | (Blocked, w') => (Blocked, w')
    | (r, w') =>
        match cleanup w' with
        | (Ok _, w'') => (r, w'')
        | (Raise e, w'') => (Raise e, w'')
        | (Blocked, w'') => (Blocked, w'')
        end
    end.

(* ================================================================== *)
(** ** The server *)

Definition WS_1008_POLICY_VIOLATION : nat := 1008.

(** [fake_decode_token]: the token is the user's email. *)
Definition fake_decode_token (fake_users_db : list (string * user))
    (token : string) : option user :=
  dict_get fake_users_db token.

(** Python's [x in l] and [l.remove(x)] on the list of connections;
    [remove] drops the first occurrence and raises ValueError when there is
    none. *)
Fixpoint list_in (x : WebSocket) (l : list WebSocket) : bool :=
  match l with
  | [] => false
  | y :: rest => if Nat.eqb y x then true else list_in x rest
  end.

Fixpoint list_remove (x : WebSocket) (l : list WebSocket)
    : option (list WebSocket) :=
  match l with
  | [] => None
  | y :: rest =>
      if Nat.eqb y x then Some rest
      else match list_remove x rest with
           | Some rest' => Some (y :: rest')
           | None => None
           end
  end.

(** SQLite's pattern matcher for [LIKE] without an ESCAPE clause: [%]
    stands for any run of characters, [_] for any one character. *)
Fixpoint pattern_compare (pattern : string) : string -> bool :=
  match pattern with
  | EmptyString =>
      fun text => match text with EmptyString => true | String _ _ => false end
  | String p rest =>
      if Ascii.eqb p "%" then
        fix star (text : string) : bool :=
          if pattern_compare rest text then true
          else match text with
               | EmptyString => false
               | String _ text' => star text'
               end
      else if Ascii.eqb p "_" then
        fun text =>
          match text with
          | EmptyString => false
          | String _ text' => pattern_compare rest text'
          end
      else
        fun text =>
          match text with
          | EmptyString => false
          | String c text' =>
              if Ascii.eqb c p then pattern_compare rest text' else false
          end
  end.

(** The text of a value as the matcher reads it, a C string: it ends at the
    first NUL. *)
Fixpoint c_string (s : string) : string :=
  match s with
  | EmptyString => EmptyString
  | String c rest =>
      if Ascii.eqb c Ascii.zero then EmptyString else String c (c_string rest)
  end.

(** The size of a value in bytes of UTF-8. *)
Fixpoint utf8_length (s : string) : N :=
  match s with
  | EmptyString => 0%N
  | String c rest =>
      ((if Nat.ltb (nat_of_ascii c) 128 then 1 else 2) + utf8_length rest)%N
  end.

Definition SQLITE_MAX_LIKE_PATTERN_LENGTH : N := 50000%N.

(** SQL [text LIKE pattern] as SQLite evaluates it for one row: a pattern
    of more than 50000 bytes is an error ("LIKE or GLOB pattern too
    complex"), [None] here; pattern and text are matched up to their first
    NUL. *)
Definition like (pattern text : string) : option bool :=
  if N.ltb SQLITE_MAX_LIKE_PATTERN_LENGTH (utf8_length pattern) then None
  else Some (pattern_compare (c_string pattern) (c_string text)).

(** [column.ilike(pattern)], which on SQLite is
    [lower(column) LIKE lower(pattern)]. *)
Definition ilike (column pattern : string) : option bool :=
  like (lower pattern) (lower column).

(** [query.filter(condition).all()]: the rows for which the condition
    holds, in table order; an error of the condition on a row is the
    query's [OperationalError], a [SQLAlchemyError]. *)
Fixpoint select_where (condition : Message.t -> option bool)
    (rows : list Message.t) : result (list Message.t) :=
  match rows with
  | [] => Ok []
  | msg :: rest =>
      match condition msg with
      | None => Raise SQLAlchemyError
      | Some keep =>
          match select_where condition rest with
          | Ok selected => Ok (if keep then msg :: selected else selected)
          | Raise e => Raise e
          | Blocked => Blocked
          end
      end
  end.

(** The id a new row of [messages] gets: one more than the largest. *)
Definition next_id (rows : list Message.t) : nat :=
  S (fold_right Nat.max 0 (map Message.id rows)).

Fixpoint assign_ids (n : nat) (new : list new_message) : list Message.t :=
  match new with
  | [] => []
  | r :: rest =>
      Message.mk n (new_sender r) (new_content r) (new_timestamp r)
        :: assign_ids (S n) rest
  end.

Definition banned_words : list string := ["spam"; "scam"; "advertisement"].

(** The literal [0.95] of the score test, the binary64 value Python reads. *)
Definition threshold : float := 0.95%float.

(** The [for word in banned_words] loop with its early [return True]. *)
Fixpoint any_banned (words : list string) (lower_content : string) : bool :=
  match words with
  | [] => false
  | word :: rest =>
      if str_in word lower_content then true else any_banned rest lower_content
  end.

Section Server.

(** The injected classifier, [sentiment_pipeline(content)[0]], and
    [datetime.isoformat]. *)
Variable sentiment_pipeline : string -> result sentiment.
Variable isoformat : datetime -> string.

Definition call_pipeline (text : string) : M sentiment :=
  emit (EvPipeline text) ;; lift (sentiment_pipeline text).

(** [moderate_message]: True means the message is flagged. *)
Definition moderate_message (content : string) : M bool :=
  let lower_content := lower content in
  if any_banned banned_words lower_content then ret true
  else
    sentiment <- call_pipeline content ;;
    if String.eqb (label sentiment) "NEGATIVE"
       && PrimFloat.ltb threshold (score sentiment)
    then ret true
    else ret false.

(** *** ConnectionManager *)

(** [websocket.accept()]; [handshake] is what this call comes back with,
    [None] when the handshake goes through. *)
Definition accept (handshake : option exn) (websocket : WebSocket) : M unit :=
  match handshake with
  | None => emit (EvAccept websocket)
  | Some e => raise e
  end.

Definition connect (handshake : option exn) (websocket : WebSocket) : M unit :=
  accept handshake websocket ;;
  modify (fun w => set_connections (active_connections w ++ [websocket]) w).

Definition disconnect (websocket : WebSocket) : M unit :=
  conns <- gets active_connections ;;
  if list_in websocket conns then
    match list_remove websocket conns with
    | Some conns' => modify (set_connections conns')
    | None => raise ValueError
    end
  else ret tt.

Definition send_json (env : Env) (websocket : WebSocket) (m : wire) : M unit :=
  match channel env websocket with
  | None => emit (EvSent websocket m)
  | Some e => emit (EvSendFailed websocket m e) ;; raise e
  end.

(** The [for connection in self.active_connections] loop. *)
Fixpoint send_each (env : Env) (conns : list WebSocket) (m : wire) : M unit :=
  match conns with
  | [] => ret tt
  | connection :: rest => send_json env connection m ;; send_each env rest m
  end.

Definition broadcast (env : Env) (message : message_entry) : M unit :=
  emit (EvBroadcast message) ;;
  conns <- gets active_connections ;;
  send_each env conns (WMessage message).

(** *** The database session *)

Definition SessionLocal : M unit :=
  emit EvSessionLocal ;;
  modify (fun w => set_db (messages w) [] true w).

Definition db_add (row : new_message) : M unit :=
  emit (EvDbAdd row) ;;
  modify (fun w => set_db (messages w) (db_new w ++ [row]) (db_open w) w).

Definition db_commit (env : Env) : M unit :=
  match commit_fault env with
  | Some e => emit (EvDbCommit false) ;; raise e
  | None =>
      emit (EvDbCommit true) ;;
      modify (fun w =>
        set_db (messages w ++ assign_ids (next_id (messages w)) (db_new w))
               [] (db_open w) w)
  end.

Definition db_refresh (env : Env) : M unit :=
  match refresh_fault env with
  | Some e => emit (EvDbRefresh false) ;; raise e
  | None => emit (EvDbRefresh true)
  end.

Definition db_close : M unit :=
  emit EvDbClose ;;
  modify (fun w => set_db (messages w) [] false w).

(** *** websocket_endpoint *)

Definition receive_json (env : Env) (websocket : WebSocket) : M json :=
  emit (EvReceive websocket) ;; lift (incoming env).

(** [data.get("content", "")]; anything but a dict has no [get]. *)
Definition get_content (data : json) : result json :=
  match data with
  | JObj fields =>
      match dict_get fields "content" with
      | Some v => Ok v
      | None => Ok (JStr "")
      end
  | _ => Raise AttributeError
  end.

Definition flagged_feedback : wire :=
  WError "Message flagged as inappropriate.".

(** One iteration of [while True].  A [content] that is not a string has
    no [lower], which is the first thing [moderate_message] asks of it. *)
Definition loop_body (env : Env) (websocket : WebSocket)
    (current_user : user) : M unit :=
  data <- receive_json env websocket ;;
  let sender := full_name current_user in
  content <- lift (get_content data) ;;
  let timestamp := utcnow env in
  match content with
  | JStr content =>
      flagged <- moderate_message content ;;
      if flagged then
        send_json env websocket flagged_feedback
      else
        let message_entry :=
          mkEntry sender content (isoformat timestamp ++ "Z")%string in
        modify (fun w =>
          set_chat_messages (chat_messages w ++ [message_entry])
            (log (EvChatAppend message_entry) w)) ;;
        db_add (mkNew sender content timestamp) ;;
        db_commit env ;;
        db_refresh env ;;
        broadcast env message_entry
  | _ => raise AttributeError
  end.

(** [while True] over the frames the environment has in store. *)
Fixpoint receive_loop (script : list Env) (websocket : WebSocket)
    (current_user : user) : M unit :=
  match script with
  | [] => emit (EvReceive websocket) ;; lift Blocked
  | env :: rest =>
      loop_body env websocket current_user ;;
      receive_loop rest websocket current_user
  end.

Definition websocket_endpoint (fake_users_db : list (string * user))
    (handshake : option exn) (websocket : WebSocket)
    (token_list : option (list string)) (script : list Env) : M unit :=
  match token_list with
  | None | Some [] => emit (EvClose websocket WS_1008_POLICY_VIOLATION)
  | Some (token :: _) =>
      match fake_decode_token fake_users_db token with
      | None => emit (EvClose websocket WS_1008_POLICY_VIOLATION)
      | Some current_user =>
          connect handshake websocket ;;
          SessionLocal ;;
          try_finally
            (try_except_disconnect
               (receive_loop script websocket current_user)
               (disconnect websocket))
            db_close
      end
  end.

(** *** search_messages *)

Definition query_ilike (keyword : string) (rows : list Message.t)
    : result (list Message.t) :=
  select_where
    (fun msg => ilike (Message.content msg) ("%" ++ keyword ++ "%")%string)
    rows.

Definition format_result (msg : Message.t) : message_entry :=
  mkEntry (Message.sender msg) (Message.content msg)
          (isoformat (Message.timestamp msg) ++ "Z")%string.

Definition search_messages (fake_users_db : list (string * user))
    (token keyword : string) : M (list message_entry) :=
  match fake_decode_token fake_users_db token with
  | None => raise (HTTPException 401)
  | Some _ =>
      rows <- gets messages ;;
      results <- lift (query_ilike keyword rows) ;;
      ret (map format_result results)
  end.

End Server.

(* ================================================================== *)
(** ** Reading the model: verdicts, registry histories, stock inputs *)

Inductive Verdict : Type := Allow | Reject.

Definition verdict (flagged : bool) : Verdict :=
  if flagged then Reject else Allow.

(** What [moderate_message] answers on a text, and the classifier calls it
    costs, apart from the world it runs in. *)
Definition moderation (pipeline : string -> result sentiment)
    (text : string) : result bool :=
  if any_banned banned_words (lower text) then Ok true
  else match pipeline text with
       | Ok s => Ok (String.eqb (label s) "NEGATIVE"
                     && PrimFloat.ltb threshold (score s))
       | Raise e => Raise e
       | Blocked => Blocked
       end.

Definition pipeline_calls (text : string) : list event :=
  if any_banned banned_words (lower text) then [] else [EvPipeline text].

(** A history of calls on the manager. *)
Inductive registry_op : Type :=
| Register (handshake : option exn) (websocket : WebSocket)
| Unregister (websocket : WebSocket).

(** Whether the handshake of a websocket is complete: its accept is on
    record. *)
Definition is_accept_of (ws : WebSocket) (e : event) : bool :=
  match e with
  | EvAccept c => Nat.eqb c ws
  | _ => false
  end.

Definition accepted (ws : WebSocket) (w : World) : bool :=
  existsb (is_accept_of ws) (trace w).

(** What [accept()] comes back with on the websockets of the framework: on
    a websocket whose handshake is complete it raises RuntimeError, on a
    new one the client's handshake decides. *)
Definition accept_outcome (handshake : option exn) (ws : WebSocket)
    (w : World) : option exn :=
  if accepted ws w then Some RuntimeError else handshake.

(** [manager.connect(websocket)] as one call on the shared manager. *)
Definition register (handshake : option exn) (ws : WebSocket) : M unit :=
  fun w => connect (accept_outcome handshake ws w) ws w.

(** The world after a history of calls, each a call of its own: one that
    raises does not keep the later ones from running. *)
Fixpoint registry_after (ops : list registry_op) (w : World) : World :=
  match ops with
  | [] => w
  | Register handshake websocket :: rest =>
      registry_after rest (snd (register handshake websocket w))
  | Unregister websocket :: rest =>
      registry_after rest (snd (disconnect websocket w))
  end.

(** What the histories keep: no handle is in the registry twice, and every
    handle in it has completed its handshake. *)
Definition registry_sound (w : World) : Prop :=
  NoDup (active_connections w) /\
  forall c, In c (active_connections w) -> accepted c w = true.

(** The messages delivered to a connection, read off a trace. *)
Fixpoint delivered (ws : WebSocket) (evs : list event) : list wire :=
  match evs with
  | [] => []
  | EvSent c m :: rest =>
      if Nat.eqb c ws then m :: delivered ws rest else delivered ws rest
  | _ :: rest => delivered ws rest
  end.

Definition is_broadcast (e : event) : bool :=
  match e with EvBroadcast _ => true | _ => false end.

Definition is_send (e : event) : bool :=
  match e with EvSent _ _ | EvSendFailed _ _ _ => true | _ => false end.

Definition is_close (e : event) : bool :=
  match e with EvClose _ _ => true | _ => false end.

Definition is_persist (e : event) : bool :=
  match e with
  | EvDbAdd _ | EvDbCommit _ | EvDbRefresh _ | EvChatAppend _ => true
  | _ => false
  end.

(** Rows in ascending order of their identifiers. *)
Definition ascending_ids (rows : list Message.t) : Prop :=
  StronglySorted (fun a b => Message.id a < Message.id b) rows.

(** What a running receive loop may do to the world: it leaves the registry
    and the session alone, only adds to [chat_messages], to the table and to
    the trace, closes no connection, and keeps the table in ascending order
    of identifiers. *)
Definition loop_changes (w w' : World) : Prop :=
  active_connections w' = active_connections w /\
  db_open w' = db_open w /\
  (exists more, chat_messages w' = chat_messages w ++ more) /\
  (exists rows, messages w' = messages w ++ rows) /\
  (exists evs, trace w' = trace w ++ evs /\ existsb is_close evs = false) /\
  (ascending_ids (messages w) -> ascending_ids (messages w')).

(** The event of a delivery, as a function of the recipient. *)
Definition sent_to (m : wire) (c : WebSocket) : event := EvSent c m.

(** *** Stock inputs *)

(** Two classifiers and a clock format to run the server on. *)
Definition calm_pipeline (text : string) : result sentiment :=
  Ok (mkSentiment "POSITIVE" 0.99%float).

Definition harsh_pipeline (text : string) : result sentiment :=
  Ok (mkSentiment "NEGATIVE" 0.99%float).

Definition plain_isoformat (t : datetime) : string := "2024-05-01T12:00:00".

(** The server at start-up: nobody connected, nothing stored. *)
Definition empty_world : World := mkWorld [] [] [] [] false [].

Definition hello : message_entry :=
  mkEntry "Student One" "Hello everyone" "2024-05-01T12:00:00Z".

Definition three_messages : list Message.t :=
  [Message.mk 1 "Student One" "Hello everyone" 7;
   Message.mk 2 "Student Two" "Goodbye" 8;
   Message.mk 3 "Student One" "hello again" 9].

Definition stored (rows : list Message.t) : World :=
  mkWorld [] [] rows [] false [].

Definition alice : user := mkUser "student1@srm.edu.in" "Student One" (Some "password1").

Definition users : list (string * user) := [("student1@srm.edu.in", alice)].

Definition frame (text : string) : json := JObj [("content", JStr text)].

(** An iteration in which every channel and the database work. *)
Definition fair (data : result json) : Env :=
  mkEnv data 7 (fun _ => None) None None.

(** An iteration in which connection [broken] no longer takes a send. *)
Definition with_broken (broken : WebSocket) (data : result json) : Env :=
  mkEnv data 7
    (fun c => if Nat.eqb c broken then Some RuntimeError else None) None None.

(** An iteration in which the commit fails. *)
Definition with_failing_commit (data : result json) : Env :=
  mkEnv data 7 (fun _ => None) (Some SQLAlchemyError) None.

Definition with_connections (l : list WebSocket) : World :=
  mkWorld l [] [] [] true [].

(** The registry contract in the specification's words, to set against
    [broadcast]. *)

(** With exactly one broken channel among the registered connections, a
    broadcast returns normally, every other connection gets the message, and
    the broken connection is gone from the registry. *)
Definition broadcast_isolates (env : Env) (message : message_entry)
    (w : World) : Prop :=
  forall broken : WebSocket,
    In broken (active_connections w) ->
    channel env broken <> None ->
    (forall c, In c (active_connections w) -> c <> broken -> channel env c = None) ->
    exists w' : World,
      broadcast env message w = (Ok tt, w') /\
      (forall c, In c (active_connections w) -> c <> broken ->
         In (EvSent c (WMessage message)) (trace w')) /\
      ~ In broken (active_connections w').

(** The stations of an accepted message on its way through [loop_body]:
    the entry and the row built from it, and the world after the entry is
    in [chat_messages], after [db.add], and after a successful
    [db.commit]. *)
Definition accepted_entry (isoformat : datetime -> string) (env : Env)
    (current_user : user) (text : string) : message_entry :=
  mkEntry (full_name current_user) text (isoformat (utcnow env) ++ "Z")%string.

Definition accepted_row (env : Env) (current_user : user) (text : string)
    : new_message :=
  mkNew (full_name current_user) text (utcnow env).

Definition after_memory (isoformat : datetime -> string) (env : Env)
    (websocket : WebSocket) (current_user : user) (text : string)
    (w : World) : World :=
  let entry := accepted_entry isoformat env current_user text in
  set_chat_messages (chat_messages w ++ [entry])
    (log_all [EvReceive websocket; EvPipeline text; EvChatAppend entry] w).

Definition after_add (isoformat : datetime -> string) (env : Env)
    (websocket : WebSocket) (current_user : user) (text : string)
    (w : World) : World :=
  let row := accepted_row env current_user text in
  set_db (messages w) (db_new w ++ [row]) (db_open w)
    (log (EvDbAdd row) (after_memory isoformat env websocket current_user text w)).

Definition after_commit (isoformat : datetime -> string) (env : Env)
    (websocket : WebSocket) (current_user : user) (text : string)
    (w : World) : World :=
  let row := accepted_row env current_user text in
  set_db (messages w ++ assign_ids (next_id (messages w)) (db_new w ++ [row]))
    [] (db_open w)
    (log (EvDbCommit true) (after_add isoformat env websocket current_user text w)).

(** The same iteration with another inbound frame. *)
Definition with_incoming (data : result json) (env : Env) : Env :=
  mkEnv data (utcnow env) (channel env) (commit_fault env) (refresh_fault env).

(** The session's error policy in the specification's words, to set against
    [loop_body]. *)

(** An append that fails is reported to the sender as an error, and the
    iteration ends normally, so that the loop goes on. *)
Definition append_failure_reported (pipeline : string -> result sentiment)
    (isoformat : datetime -> string) (env : Env) (ws : WebSocket)
    (current_user : user) (w : World) : Prop :=
  exists w' : World,
    loop_body pipeline isoformat env ws current_user w = (Ok tt, w') /\
    exists detail, In (EvSent ws (WError detail)) (trace w').

(** A payload without the content field is a protocol violation: the
    connection is closed and the payload is not processed as a message. *)
Definition missing_content_closes (pipeline : string -> result sentiment)
    (isoformat : datetime -> string) (env : Env) (ws : WebSocket)
    (current_user : user) (w : World) : Prop :=
  exists (r : result unit) (w' : World) (code : nat),
    loop_body pipeline isoformat env ws current_user w = (r, w') /\
    In (EvClose ws code) (trace w') /\
    chat_messages w' = chat_messages w /\
    messages w' = messages w.

(** A session that has terminated has left the registry and released its
    database session. *)
Definition terminated_session_cleaned (ws : WebSocket)
    (outcome : result unit * World) : Prop :=
  fst outcome <> Blocked ->
  ~ In ws (active_connections (snd outcome)) /\ db_open (snd outcome) = false.

(** Search in the specification's words: the stored messages whose content
    contains the keyword, letter case aside. *)
Definition contains_keyword (keyword : string) (msg : Message.t) : bool :=
  str_in (lower keyword) (lower (Message.content msg)).

Definition search_is_substring_match : Prop :=
  forall (keyword : string) (rows : list Message.t),
    query_ilike keyword rows = Ok (filter (contains_keyword keyword) rows).

(** A text without a NUL character. *)
Fixpoint nul_free (s : string) : bool :=
  match s with
  | EmptyString => true
  | String c rest => negb (Ascii.eqb c Ascii.zero) && nul_free rest
  end.

(** A keyword in which [LIKE] finds nothing to interpret. *)
Fixpoint wildcard_free (s : string) : bool :=
  match s with
  | EmptyString => true
  | String c rest =>
      negb (Ascii.eqb c "%") && negb (Ascii.eqb c "_") && wildcard_free rest
  end.

(* ================================================================== *)
(** ** The HTTP side: password login and Google sign-in *)

(** [s.endswith(suffix)]. *)
Fixpoint str_endswith (suffix s : string) : bool :=
  if String.eqb s suffix then true
  else match s with
       | EmptyString => false
       | String _ rest => str_endswith suffix rest
       end.

(** What an HTTP handler ends with: its return value, an [HTTPException]
    with status code and detail, or an exception nobody catches. *)
Inductive response (A : Type) : Type :=
| Returned (a : A)
| HTTPError (status_code : nat) (detail : string)
| Unhandled (e : exn).
Arguments Returned {A} a.
Arguments HTTPError {A} status_code detail.
Arguments Unhandled {A} e.

Record token_response : Type := mkToken {
  access_token : string;
  token_type : string
}.

(** [user["password"] != form_data.password]: the stored password is a
    string or None, the submitted one a string. *)
Definition password_differs (stored : option string) (given : string) : bool :=
  match stored with
  | Some p => negb (String.eqb p given)
  | None => true
  end.

(** [login], the handler of POST /token. *)
Definition login (fake_users_db : list (string * user))
    (form_username form_password : string) : response token_response :=
  let email := form_username in
  if negb (str_endswith "@srm.edu.in" email) then
    HTTPError 400 "Please sign in with your SRM email."
  else
    match dict_get fake_users_db email with
    | None => HTTPError 400 "Incorrect email or password"
    | Some user =>
        if password_differs (password user) form_password then
          HTTPError 400 "Incorrect email or password"
        else Returned (mkToken (username user) "bearer")
    end.

(** [get_current_user], the dependency of the authenticated endpoints. *)
Definition get_current_user (fake_users_db : list (string * user))
    (token : string) : response user :=
  match fake_decode_token fake_users_db token with
  | None => HTTPError 401 "Invalid authentication credentials"
  | Some user => Returned user
  end.

(** What [oauth.google.authorize_access_token] comes back with. *)
Inductive token_exchange : Type :=
| TokenGranted
| OAuthError (error : string)
| ExchangeFailed (e : exn).

(** The claims of the id token that the callback reads: [email] may be
    missing; [name] is taken as present, as the profile scope requested at
    registration provides it. *)
Record user_info : Type := mkInfo {
  info_email : option string;
  info_name : string
}.

(** The [RedirectResponse] with its cookie. *)
Record redirect : Type := mkRedirect {
  url : string;
  cookie_key : string;
  cookie_value : string
}.

(** [auth_google_callback]; [parse_id_token] is [None] when it raises.
    The handler returns its response and the dict [fake_users_db] as it
    leaves it; a new key goes to the end of the dict. *)
Definition auth_google_callback (fake_users_db : list (string * user))
    (authorize_access_token : token_exchange)
    (parse_id_token : option user_info)
    : response redirect * list (string * user) :=
  match authorize_access_token with
  | OAuthError error =>
      (HTTPError 400 ("OAuth error: " ++ error)%string, fake_users_db)
  | ExchangeFailed e => (Unhandled e, fake_users_db)
  | TokenGranted =>
      match parse_id_token with
      | None =>
          (HTTPError 400 "Error processing user information.", fake_users_db)
      | Some user_info =>
          let full_name := info_name user_info in
          match info_email user_info with
          | None => (Unhandled AttributeError, fake_users_db)
          | Some email =>
              if negb (str_endswith "@srm.edu.in" email) then
                (HTTPError 400 "Only SRM email accounts are allowed.",
                 fake_users_db)
              else
                let fake_users_db' :=
                  match dict_get fake_users_db email with
                  | None => fake_users_db ++ [(email, mkUser email full_name None)]
                  | Some _ => fake_users_db
                  end in
                (Returned (mkRedirect ("/?token=" ++ email)%string
                             "access_token" email),
                 fake_users_db')
          end
      end
  end.

(** The dict [fake_users_db] as the module creates it. *)
Definition initial_users : list (string * user) :=
  [("student1@srm.edu.in",
    mkUser "student1@srm.edu.in" "Student One" (Some "password1"));
   ("student2@srm.edu.in",
    mkUser "student2@srm.edu.in" "Student Two" (Some "password2"))].

(** What the handlers keep true of [fake_users_db]: every record sits under
    its own username, and every key is an SRM address. *)
Definition keyed_by_username (db : list (string * user)) : Prop :=
  Forall (fun kv => username (snd kv) = fst kv) db.

Definition srm_only (db : list (string * user)) : Prop :=
  Forall (fun kv => str_endswith "@srm.edu.in" (fst kv) = true) db.

(** *** Reading a session *)

(** An event that carries a message names [name] as its sender. *)
Definition names_sender (name : string) (e : event) : Prop :=
  match e with
  | EvSent _ (WMessage m) => sender m = name
  | EvSendFailed _ (WMessage m) _ => sender m = name
  | EvBroadcast m => sender m = name
  | EvChatAppend m => sender m = name
  | EvDbAdd r => new_sender r = name
  | _ => True
  end.

(** Everything a stretch of the session has written carries [name]. *)
Definition written_by (name : string) (w w' : World) : Prop :=
  (exists more, chat_messages w' = chat_messages w ++ more /\
                Forall (fun e => sender e = name) more) /\
  (exists rows, messages w' = messages w ++ rows /\
                Forall (fun r => Message.sender r = name) rows) /\
  (exists evs, trace w' = trace w ++ evs /\ Forall (names_sender name) evs) /\
  Forall (fun r => new_sender r = name) (db_new w').

(** An iteration in which the frame is a message with content [text] that
    the gate allows, the database works and every channel takes a send. *)
Definition accepts (pipeline : string -> result sentiment) (env : Env)
    (text : string) : Prop :=
  (exists data, incoming env = Ok data /\ get_content data = Ok (JStr text)) /\
  moderation pipeline text = Ok false /\
  commit_fault env = None /\
  refresh_fault env = None /\
  (forall c, channel env c = None).

(** An iteration in which one recipient's channel answers a send with
    [WebSocketDisconnect]. *)
Definition with_disconnected (gone : WebSocket) (data : result json) : Env :=
  mkEnv data 7
    (fun c => if Nat.eqb c gone then Some WebSocketDisconnect else None)
    None None.

(* ================================================================== *)
(** * Properties *)

(** ** The world and the monad *)

Lemma log_all_nil (w : World) : log_all [] w = w.
Proof. destruct w; unfold log_all; simpl. now rewrite app_nil_r. Qed.

Lemma log_all_app (a b : list event) (w : World) :
  log_all b (log_all a w) = log_all (a ++ b) w.
Proof. unfold log_all; simpl. now rewrite app_assoc. Qed.

Lemma log_log_all (e : event) (evs : list event) (w : World) :
  log_all evs (log e w) = log_all (e :: evs) w.
Proof. unfold log. now rewrite log_all_app. Qed.

(** ** Moderation *)

(** [moderate_message] changes nothing in the world but the trace, where it
    leaves one event per classifier call. *)
Lemma moderate_message_run (pipeline : string -> result sentiment)
    (text : string) (w : World) :
  moderate_message pipeline text w
    = (moderation pipeline text, log_all (pipeline_calls text) w).
Proof.
  unfold moderate_message, moderation, pipeline_calls.
  destruct (any_banned banned_words (lower text)).
  - unfold ret. now rewrite log_all_nil.
  - unfold call_pipeline, bind, emit, lift, log.
    destruct (pipeline text) as [s | e |]; try reflexivity.
    now destruct (String.eqb (label s) "NEGATIVE" && PrimFloat.ltb threshold (score s)).
Qed.

(** C2. [moderate_message] is the two-stage gate: a text whose lowercased
    form contains a banned word is rejected with the world untouched, so the
    classifier is not called; any other text costs exactly one classifier
    call, and is rejected if and only if the label is NEGATIVE and the score
    is above 0.95, and allowed otherwise. *)
Theorem moderate_message_two_stage :
  forall (pipeline : string -> result sentiment) (text : string) (w : World),
    (any_banned banned_words (lower text) = true ->
       moderate_message pipeline text w = (Ok true, w)) /\
    (any_banned banned_words (lower text) = false ->
       forall s : sentiment, pipeline text = Ok s ->
         exists flagged : bool,
           moderate_message pipeline text w
             = (Ok flagged, log (EvPipeline text) w) /\
           (verdict flagged = Reject <->
              label s = "NEGATIVE" /\ PrimFloat.ltb threshold (score s) = true) /\
           (verdict flagged = Allow <->
              ~ (label s = "NEGATIVE" /\ PrimFloat.ltb threshold (score s) = true))).
Proof.
  intros pipeline text w; split; intro Hban.
  - unfold moderate_message. now rewrite Hban.
  - intros s Hs.
    exists (String.eqb (label s) "NEGATIVE" && PrimFloat.ltb threshold (score s)).
    split.
    + unfold moderate_message, call_pipeline, bind, emit, lift.
      rewrite Hban, Hs.
      now destruct (String.eqb (label s) "NEGATIVE" && PrimFloat.ltb threshold (score s)).
    + destruct (String.eqb_spec (label s) "NEGATIVE") as [Hl | Hl];
        destruct (PrimFloat.ltb threshold (score s)); simpl;
        (split; split); intros H; try discriminate; try tauto;
        try (destruct H; try discriminate; contradiction);
        try (intros [H1 H2]; try discriminate; contradiction);
        try (exfalso; apply H; split; tauto).
Qed.

(** The two stages on concrete texts: "Buy our SCAM product" never reaches
    the classifier; "Hello everyone" is classified once and allowed. *)
Lemma moderate_message_two_stage_witness :
  moderate_message harsh_pipeline "Buy our SCAM product" empty_world
    = (Ok true, empty_world) /\
  exists flagged : bool,
    moderate_message calm_pipeline "Hello everyone" empty_world
      = (Ok flagged, log (EvPipeline "Hello everyone") empty_world) /\
    verdict flagged = Allow.
Proof.
  split.
  - apply (proj1 (moderate_message_two_stage harsh_pipeline
                    "Buy our SCAM product" empty_world)).
    reflexivity.
  - destruct (proj2 (moderate_message_two_stage calm_pipeline
                       "Hello everyone" empty_world)
                eq_refl (mkSentiment "POSITIVE" 0.99%float) eq_refl)
      as [flagged [Hrun [_ Hallow]]].
    exists flagged; split; [exact Hrun |].
    apply Hallow. intros [Hl _]. discriminate.
Defined.

(** ** ConnectionManager *)

Lemma list_in_In (x : WebSocket) (l : list WebSocket) :
  list_in x l = true <-> In x l.
Proof.
  induction l as [| y l IH]; simpl.
  - split; [discriminate | tauto].
  - destruct (Nat.eqb_spec y x) as [-> | Hne].
    + tauto.
    + rewrite IH. split; [tauto | intros [H | H]; [contradiction | exact H]].
Qed.

Lemma list_in_false (x : WebSocket) (l : list WebSocket) :
  list_in x l = false <-> ~ In x l.
Proof.
  rewrite <- list_in_In. destruct (list_in x l); split; intro H;
    try reflexivity; try discriminate; try (intro; discriminate).
  exfalso; now apply H.
Qed.

(** [remove] succeeds on a member, keeps the others in place, and on a list
    without repetition leaves no occurrence behind. *)
Lemma list_remove_member (x : WebSocket) (l : list WebSocket) :
  In x l ->
  exists l', list_remove x l = Some l' /\
             (forall y, In y l' -> In y l) /\
             (forall y, In y l -> y <> x -> In y l') /\
             (NoDup l -> NoDup l' /\ ~ In x l').
Proof.
  induction l as [| y l IH]; simpl; [tauto |].
  intro Hin. destruct (Nat.eqb_spec y x) as [-> | Hne].
  - exists l. repeat split; auto.
    + intros z [Hz | Hz] Hzx; [congruence | exact Hz].
    + now inversion H.
    + now inversion H.
  - destruct Hin as [Hyx | Hin]; [contradiction |].
    destruct (IH Hin) as [l' [Hrm [Hsub [Hkeep Hnd]]]].
    rewrite Hrm. exists (y :: l'). repeat split.
    + intros z [Hz | Hz]; [now left | right; auto].
    + intros z [Hz | Hz] Hzx; [now left | right; auto].
    + inversion H as [| ? ? Hy Hl]; subst.
      constructor; [intro Hc; apply Hy; auto | now apply Hnd].
    + inversion H as [| ? ? Hy Hl]; subst.
      intros [Hc | Hc]; [contradiction | now apply (proj2 (Hnd Hl))].
Qed.

Lemma disconnect_absent (ws : WebSocket) (w : World) :
  list_in ws (active_connections w) = false ->
  disconnect ws w = (Ok tt, w).
Proof.
  intro H. unfold disconnect, bind, gets. now rewrite H.
Qed.

Lemma disconnect_present (ws : WebSocket) (w : World) :
  In ws (active_connections w) ->
  exists l', list_remove ws (active_connections w) = Some l' /\
             disconnect ws w = (Ok tt, set_connections l' w).
Proof.
  intro Hin. destruct (list_remove_member ws _ Hin) as [l' [Hrm _]].
  exists l'. split; [exact Hrm |].
  unfold disconnect, bind, gets, modify.
  rewrite (proj2 (list_in_In ws _) Hin). now rewrite Hrm.
Qed.

(** [disconnect] never raises: the membership test guards [remove]. *)
Lemma disconnect_returns (ws : WebSocket) (w : World) :
  exists w', disconnect ws w = (Ok tt, w') /\
             (forall c, In c (active_connections w') -> In c (active_connections w)) /\
             (NoDup (active_connections w) -> NoDup (active_connections w')) /\
             chat_messages w' = chat_messages w /\ messages w' = messages w /\
             db_new w' = db_new w /\ db_open w' = db_open w /\ trace w' = trace w.
Proof.
  destruct (list_in ws (active_connections w)) eqn:Hin.
  - apply list_in_In in Hin.
    destruct (list_remove_member ws _ Hin) as [l' [Hrm [Hsub [_ Hnd]]]].
    destruct (disconnect_present ws w Hin) as [l2 [Hrm2 Hrun]].
    rewrite Hrm in Hrm2. injection Hrm2 as <-.
    exists (set_connections l' w). repeat split; auto.
    intro H. now apply Hnd.
  - exists w. repeat split; auto using disconnect_absent.
Qed.

(** C8. Unregister is idempotent.  In every registry state [disconnect]
    returns without an error, and so does a second [disconnect] of the same
    connection; on an absent connection it changes nothing; and on a
    registry that holds each connection at most once the second call changes
    nothing more than the first, the connection being gone after it. *)
Theorem disconnect_idempotent :
  forall (ws : WebSocket) (w : World),
    exists w1 w2 : World,
      disconnect ws w = (Ok tt, w1) /\
      disconnect ws w1 = (Ok tt, w2) /\
      (~ In ws (active_connections w) -> w1 = w) /\
      (NoDup (active_connections w) ->
       w2 = w1 /\ ~ In ws (active_connections w1)).
Proof.
  intros ws w.
  destruct (list_in ws (active_connections w)) eqn:Hin.
  - apply list_in_In in Hin.
    destruct (list_remove_member ws _ Hin) as [l' [Hrm [_ [_ Hgone]]]].
    destruct (disconnect_present ws w Hin) as [l2 [Hrm2 Hrun]].
    rewrite Hrm in Hrm2. injection Hrm2 as <-.
    destruct (disconnect_returns ws (set_connections l' w)) as [w2 [Hrun2 _]].
    exists (set_connections l' w), w2.
    split; [exact Hrun |]. split; [exact Hrun2 |].
    split; [intro Habs; contradiction |].
    intro Hnd. destruct (Hgone Hnd) as [_ Hout]. split; [| exact Hout].
    rewrite disconnect_absent in Hrun2 by (simpl; now apply list_in_false).
    now injection Hrun2.
  - pose proof (disconnect_absent ws w Hin) as Hrun.
    exists w, w.
    split; [exact Hrun |]. split; [exact Hrun |].
    split; [reflexivity |].
    intros _. split; [reflexivity | now apply list_in_false].
Qed.

(** Connection 2 leaves a registry of three, and leaves it once. *)
Lemma disconnect_idempotent_witness :
  exists w1 : World,
    disconnect 2 (with_connections [1; 2; 3]) = (Ok tt, w1) /\
    disconnect 2 w1 = (Ok tt, w1) /\
    ~ In 2 (active_connections w1).
Proof.
  destruct (disconnect_idempotent 2 (with_connections [1; 2; 3]))
    as [w1 [w2 [Hfirst [Hsecond [_ Honce]]]]].
  destruct Honce as [Hsame Hgone].
  - simpl. repeat constructor; simpl; intuition discriminate.
  - exists w1. rewrite Hsame in Hsecond. auto.
Defined.

(** [connect] appends whenever the handshake goes through; it looks at the
    registry at no point. *)
Lemma connect_run (handshake : option exn) (ws : WebSocket) (w : World) :
  connect handshake ws w =
    match handshake with
    | None => (Ok tt, set_connections (active_connections w ++ [ws])
                        (log (EvAccept ws) w))
    | Some e => (Raise e, w)
    end.
Proof. now destruct handshake. Qed.

Lemma register_keeps_sound (handshake : option exn) (ws : WebSocket)
    (w : World) :
  registry_sound w -> registry_sound (snd (register handshake ws w)).
Proof.
  intros [Hnd Hacc]. unfold register, accept_outcome. rewrite connect_run.
  destruct (accepted ws w) eqn:Hws; [now split |].
  destruct handshake as [e |]; [now split |].
  split; simpl.
  - apply NoDup_app; auto.
    + constructor; [tauto | constructor].
    + intros c Hc [Heq | []]. subst c. specialize (Hacc ws Hc). congruence.
  - intros c Hc. unfold accepted. simpl. rewrite existsb_app.
    apply in_app_or in Hc. destruct Hc as [Hc | [<- | []]].
    + unfold accepted in Hacc. now rewrite (Hacc c Hc).
    + simpl. rewrite Nat.eqb_refl. now rewrite orb_true_r.
Qed.

Lemma disconnect_keeps_sound (ws : WebSocket) (w : World) :
  registry_sound w -> registry_sound (snd (disconnect ws w)).
Proof.
  intros [Hnd Hacc].
  destruct (disconnect_returns ws w)
    as [w' [Hrun [Hsub [Hnd' [_ [_ [_ [_ Htrace]]]]]]]].
  rewrite Hrun. simpl. split; [now apply Hnd' |].
  intros c Hc. unfold accepted. rewrite Htrace. now apply Hacc, Hsub.
Qed.

Lemma registry_after_sound (ops : list registry_op) :
  forall w : World, registry_sound w -> registry_sound (registry_after ops w).
Proof.
  induction ops as [| [handshake ws | ws] ops IH]; intros w Hw; simpl.
  - exact Hw.
  - now apply IH, register_keeps_sound.
  - now apply IH, disconnect_keeps_sound.
Qed.

(** C9. Registering a handle that is already in the registry fails, and so
    each connection appears at most once.  After every history of [connect]
    and [disconnect] calls on a manager that started empty, the registry
    holds no handle twice, and [connect] on a handle that is in it raises
    and leaves the registry and everything else as they are.  The error is
    the RuntimeError with which [accept] refuses a websocket whose handshake
    is complete, raised before the append is reached; the registry names no
    error of its own. *)
Theorem register_refuses_present_handle :
  forall (ops : list registry_op) (handshake : option exn) (ws : WebSocket),
    NoDup (active_connections (registry_after ops empty_world)) /\
    (In ws (active_connections (registry_after ops empty_world)) ->
     register handshake ws (registry_after ops empty_world)
       = (Raise RuntimeError, registry_after ops empty_world)).
Proof.
  intros ops handshake ws.
  assert (Hsound : registry_sound (registry_after ops empty_world)).
  { apply registry_after_sound. split; [constructor | intros c []]. }
  destruct Hsound as [Hnd Hacc]. split; [exact Hnd |].
  intro Hin. unfold register, accept_outcome.
  rewrite (Hacc ws Hin). apply connect_run.
Qed.

(** Three sessions come; the first tries to register again, twice; one
    goes and tries to come back. *)
Lemma register_refuses_present_handle_witness :
  active_connections
    (registry_after [Register None 1; Register None 2; Register None 1;
                     Register None 3; Unregister 2; Register None 2]
                    empty_world) = [1; 3] /\
  register None 1
    (registry_after [Register None 1; Register None 2; Register None 1;
                     Register None 3; Unregister 2; Register None 2]
                    empty_world)
  = (Raise RuntimeError,
     registry_after [Register None 1; Register None 2; Register None 1;
                     Register None 3; Unregister 2; Register None 2]
                    empty_world).
Proof.
  split; [reflexivity |].
  apply (proj2 (register_refuses_present_handle
                  [Register None 1; Register None 2; Register None 1;
                   Register None 3; Unregister 2; Register None 2] None 1)).
  simpl. now left.
Defined.

(** *** broadcast *)

Lemma send_each_delivers (env : Env) (m : wire) (conns : list WebSocket) :
  forall w : World,
    (forall c, In c conns -> channel env c = None) ->
    send_each env conns m w = (Ok tt, log_all (map (sent_to m) conns) w).
Proof.
  induction conns as [| c conns IH]; intros w Hok; simpl.
  - unfold ret. now rewrite log_all_nil.
  - unfold bind, send_json. rewrite (Hok c (or_introl eq_refl)).
    unfold emit. rewrite IH by (intros; apply Hok; now right).
    now rewrite log_log_all.
Qed.

Lemma send_each_stops (env : Env) (m : wire) (before : list WebSocket) :
  forall (broken : WebSocket) (after : list WebSocket) (e : exn) (w : World),
    (forall c, In c before -> channel env c = None) ->
    channel env broken = Some e ->
    send_each env (before ++ broken :: after) m w
      = (Raise e,
         log_all (map (sent_to m) before ++ [EvSendFailed broken m e]) w).
Proof.
  induction before as [| c before IH]; intros broken after e w Hok Hbroken; simpl.
  - unfold bind, send_json. rewrite Hbroken. reflexivity.
  - unfold bind at 1. unfold send_json at 1. rewrite (Hok c (or_introl eq_refl)).
    unfold emit.
    rewrite (IH broken after e) by (auto; intros; apply Hok; now right).
    now rewrite log_log_all.
Qed.

(** The sends ask the environment for the channels and for nothing else. *)
Lemma send_each_same_channel (env env' : Env) (m : wire) (conns : list WebSocket) :
  (forall c, channel env c = channel env' c) ->
  forall w : World, send_each env conns m w = send_each env' conns m w.
Proof.
  intro Hsame. induction conns as [| c conns IH]; intro w; simpl; [reflexivity |].
  unfold bind, send_json. rewrite <- (Hsame c).
  destruct (channel env c); [reflexivity |].
  unfold emit. apply IH.
Qed.

Lemma broadcast_run (env : Env) (message : message_entry) (w : World) :
  broadcast env message w
    = send_each env (active_connections w) (WMessage message)
        (log (EvBroadcast message) w).
Proof. reflexivity. Qed.

(** With every channel in order, everyone registered gets the message, in
    registration order. *)
Lemma broadcast_delivers (env : Env) (message : message_entry) (w : World) :
  (forall c, In c (active_connections w) -> channel env c = None) ->
  broadcast env message w
    = (Ok tt,
       log_all (EvBroadcast message
                  :: map (sent_to (WMessage message)) (active_connections w)) w).
Proof.
  intro Hok. rewrite broadcast_run, send_each_delivers by exact Hok.
  now rewrite log_log_all.
Qed.

(** C3 (as the code has it). A broadcast sends in registration order and
    stops at the first broken channel: the connections registered before it
    get the message, its send failure is raised to the caller of
    [broadcast], nothing is sent to the connections after it, and the
    registry is left as it was, the broken connection still in it. *)
Theorem broadcast_stops_at_broken :
  forall (env : Env) (message : message_entry) (w : World)
         (before after : list WebSocket) (broken : WebSocket) (e : exn),
    active_connections w = (before ++ broken :: after)%list ->
    (forall c, In c before -> channel env c = None) ->
    channel env broken = Some e ->
    exists w' : World,
      broadcast env message w = (Raise e, w') /\
      trace w' = (trace w ++
                  EvBroadcast message
                  :: map (sent_to (WMessage message)) before
                  ++ [EvSendFailed broken (WMessage message) e])%list /\
      active_connections w' = active_connections w /\
      In broken (active_connections w').
Proof.
  intros env message w before after broken e Hconns Hok Hbroken.
  eexists. split.
  - rewrite broadcast_run, Hconns.
    rewrite (send_each_stops env _ before broken after e) by assumption.
    rewrite log_log_all. reflexivity.
  - simpl. repeat split.
    rewrite Hconns. apply in_or_app. right. now left.
Qed.

(** Connection 2 of 1, 2, 3 is broken: 1 is served, 3 is not. *)
Lemma broadcast_stops_at_broken_witness :
  exists w' : World,
    broadcast (with_broken 2 Blocked) hello (with_connections [1; 2; 3])
      = (Raise RuntimeError, w') /\
    trace w' = (trace (with_connections [1; 2; 3]) ++
                EvBroadcast hello
                :: map (sent_to (WMessage hello)) [1]
                ++ [EvSendFailed 2 (WMessage hello) RuntimeError])%list /\
    active_connections w' = active_connections (with_connections [1; 2; 3]) /\
    In 2 (active_connections w').
Proof.
  apply (broadcast_stops_at_broken (with_broken 2 Blocked) hello
           (with_connections [1; 2; 3]) [1] [3] 2 RuntimeError).
  - reflexivity.
  - intros c [<- | []]. reflexivity.
  - reflexivity.
Defined.

(** C3 (as the specification has it) fails on that registry: the fault
    reaches the caller, connection 3 gets nothing and connection 2 stays. *)
Lemma broadcast_isolates_counterexample :
  broadcast (with_broken 2 Blocked) hello (with_connections [1; 2; 3])
    = (Raise RuntimeError,
       log_all [EvBroadcast hello; EvSent 1 (WMessage hello);
                EvSendFailed 2 (WMessage hello) RuntimeError]
         (with_connections [1; 2; 3])) /\
  ~ broadcast_isolates (with_broken 2 Blocked) hello (with_connections [1; 2; 3]).
Proof.
  split; [reflexivity |].
  intro Hiso.
  destruct (Hiso 2) as [w' [Hrun _]].
  - simpl. tauto.
  - discriminate.
  - intros c [<- | [<- | [<- | []]]] Hne; try reflexivity. now contradiction Hne.
  - discriminate Hrun.
Qed.

(** ** The receive loop *)

Section Loop.

Variable pipeline : string -> result sentiment.
Variable iso : datetime -> string.

(** Up to the moderation gate: a frame whose content is the string [text]. *)
Lemma loop_body_text (env : Env) (ws : WebSocket) (u : user) (data : json)
    (text : string) (w : World) :
  incoming env = Ok data ->
  get_content data = Ok (JStr text) ->
  loop_body pipeline iso env ws u w =
    match moderation pipeline text with
    | Ok true =>
        send_json env ws flagged_feedback
          (log_all (EvReceive ws :: pipeline_calls text) w)
    | Ok false =>
        let entry := accepted_entry iso env u text in
        (db_add (accepted_row env u text) ;;
         db_commit env ;;
         db_refresh env ;;
         broadcast env entry)
          (set_chat_messages (chat_messages w ++ [entry])
             (log_all (EvReceive ws :: pipeline_calls text ++ [EvChatAppend entry]) w))
    | Raise e => (Raise e, log_all (EvReceive ws :: pipeline_calls text) w)
    | Blocked => (Blocked, log_all (EvReceive ws :: pipeline_calls text) w)
    end.
Proof.
  intros Hin Hget.
  unfold loop_body, receive_json, bind at 1 2, emit, lift. rewrite Hin.
  unfold bind at 1, lift. rewrite Hget.
  unfold bind at 1. rewrite moderate_message_run, log_log_all.
  destruct (moderation pipeline text) as [[|] | e |]; try reflexivity.
  unfold bind at 1, modify. unfold log. rewrite log_all_app.
  reflexivity.
Qed.

(** An allowed text has passed the word list, so the classifier was asked. *)
Lemma allowed_calls (text : string) :
  moderation pipeline text = Ok false ->
  pipeline_calls text = [EvPipeline text].
Proof.
  unfold moderation, pipeline_calls.
  destruct (any_banned banned_words (lower text)); [discriminate | reflexivity].
Qed.

(** The accept path, station by station. *)
Lemma loop_body_accepted (env : Env) (ws : WebSocket) (u : user) (data : json)
    (text : string) (w : World) :
  incoming env = Ok data ->
  get_content data = Ok (JStr text) ->
  moderation pipeline text = Ok false ->
  loop_body pipeline iso env ws u w =
    match commit_fault env with
    | Some e => (Raise e, log (EvDbCommit false) (after_add iso env ws u text w))
    | None =>
        match refresh_fault env with
        | Some e =>
            (Raise e, log (EvDbRefresh false) (after_commit iso env ws u text w))
        | None =>
            broadcast env (accepted_entry iso env u text)
              (log (EvDbRefresh true) (after_commit iso env ws u text w))
        end
    end.
Proof.
  intros Hin Hget Hmod.
  rewrite (loop_body_text env ws u data text w Hin Hget), Hmod.
  rewrite (allowed_calls text Hmod). cbv zeta.
  unfold db_add, db_commit, db_refresh.
  destruct (commit_fault env) as [e |]; [reflexivity |].
  destruct (refresh_fault env) as [e |]; reflexivity.
Qed.

(** *** What the loop leaves alone *)

Ltac loop_changes_split :=
  unfold loop_changes; repeat match goal with |- _ /\ _ => split end.

(** Identifiers handed out by a commit lie above those in the table. *)
Lemma ids_below_next (rows : list Message.t) :
  Forall (fun r => Message.id r < next_id rows) rows.
Proof.
  unfold next_id. induction rows as [| r rows IH]; constructor; simpl.
  - lia.
  - eapply Forall_impl; [| exact IH]. simpl. intros a Ha. lia.
Qed.

Lemma assign_ids_ascending (new : list new_message) :
  forall n : nat,
    ascending_ids (assign_ids n new) /\
    Forall (fun r => n <= Message.id r) (assign_ids n new).
Proof.
  unfold ascending_ids.
  induction new as [| r new IH]; intro n; simpl.
  - split; constructor.
  - destruct (IH (S n)) as [Hs Hge]. split.
    + constructor; [exact Hs |].
      eapply Forall_impl; [| exact Hge]. simpl. intros a Ha. lia.
    + constructor; [simpl; lia |].
      eapply Forall_impl; [| exact Hge]. simpl. intros a Ha. lia.
Qed.

Lemma ascending_app (a b : list Message.t) :
  ascending_ids a -> ascending_ids b ->
  (forall x y, In x a -> In y b -> Message.id x < Message.id y) ->
  ascending_ids (a ++ b).
Proof.
  unfold ascending_ids. induction a as [| r a IH]; intros Ha Hb Hlt; simpl.
  - exact Hb.
  - apply StronglySorted_inv in Ha. destruct Ha as [Ha Hr].
    constructor.
    + apply IH; auto. intros x y Hx Hy. apply Hlt; [now right | exact Hy].
    + apply Forall_app. split; [exact Hr |].
      apply Forall_forall. intros y Hy. apply Hlt; [now left | exact Hy].
Qed.

(** A commit appends its rows with fresh, larger identifiers. *)
Lemma commit_keeps_ascending (rows : list Message.t) (new : list new_message) :
  ascending_ids rows ->
  ascending_ids (rows ++ assign_ids (next_id rows) new).
Proof.
  intro Hrows.
  destruct (assign_ids_ascending new (next_id rows)) as [Hnew Hge].
  apply ascending_app; auto.
  intros x y Hx Hy.
  pose proof (ids_below_next rows) as Hlt.
  rewrite Forall_forall in Hlt, Hge.
  specialize (Hlt x Hx). specialize (Hge y Hy). simpl in *. lia.
Qed.

Lemma loop_changes_refl (w : World) : loop_changes w w.
Proof.
  loop_changes_split; try reflexivity; try (exists []; now rewrite app_nil_r).
  auto.
Qed.

Lemma loop_changes_trans (w1 w2 w3 : World) :
  loop_changes w1 w2 -> loop_changes w2 w3 -> loop_changes w1 w3.
Proof.
  intros [Hc1 [Ho1 [[m1 Hm1] [[r1 Hr1] [[e1 [Ht1 Hn1]] Ha1]]]]]
         [Hc2 [Ho2 [[m2 Hm2] [[r2 Hr2] [[e2 [Ht2 Hn2]] Ha2]]]]].
  loop_changes_split; try congruence; [| | | auto].
  - exists (m1 ++ m2)%list. rewrite Hm2, Hm1. now rewrite app_assoc.
  - exists (r1 ++ r2)%list. rewrite Hr2, Hr1. now rewrite app_assoc.
  - exists (e1 ++ e2)%list. split.
    + rewrite Ht2, Ht1. now rewrite app_assoc.
    + rewrite existsb_app, Hn1, Hn2. reflexivity.
Qed.

Lemma loop_changes_log (evs : list event) (w : World) :
  existsb is_close evs = false -> loop_changes w (log_all evs w).
Proof.
  intro Hn.
  loop_changes_split; simpl; try reflexivity;
    try (exists []; now rewrite app_nil_r); [| auto].
  exists evs. auto.
Qed.

(** A broadcast's sends change the trace and nothing else. *)
Lemma send_each_only_logs (env : Env) (m : wire) (conns : list WebSocket) :
  forall w : World,
    exists evs, snd (send_each env conns m w) = log_all evs w /\
                existsb is_close evs = false /\
                existsb is_persist evs = false.
Proof.
  induction conns as [| c conns IH]; intro w; simpl.
  - exists []. now rewrite log_all_nil.
  - unfold bind at 1, send_json. destruct (channel env c) as [e |]; simpl.
    + now exists [EvSendFailed c m e].
    + destruct (IH (log (EvSent c m) w)) as [evs [Hevs [Hc Hp]]].
      exists (EvSent c m :: evs). rewrite Hevs, log_log_all. now simpl.
Qed.

Lemma send_each_changes (env : Env) (m : wire) (conns : list WebSocket) :
  forall w : World,
    loop_changes w (snd (send_each env conns m w)).
Proof.
  induction conns as [| c conns IH]; intro w; simpl.
  - apply loop_changes_refl.
  - unfold bind at 1, send_json. destruct (channel env c) as [e |]; simpl.
    + now apply (loop_changes_log [EvSendFailed c m e]).
    + eapply loop_changes_trans; [| apply IH].
      now apply (loop_changes_log [EvSent c m]).
Qed.

Lemma pipeline_calls_no_close (text : string) :
  existsb is_close (pipeline_calls text) = false.
Proof. unfold pipeline_calls. now destruct (any_banned banned_words (lower text)). Qed.

Lemma loop_body_changes (env : Env) (ws : WebSocket) (u : user) (w : World) :
  loop_changes w (snd (loop_body pipeline iso env ws u w)).
Proof.
  destruct (incoming env) as [data | e |] eqn:Hin;
    try (unfold loop_body, receive_json, bind, emit, lift; rewrite Hin; simpl;
         now apply (loop_changes_log [EvReceive ws])).
  destruct (get_content data) as [[| | | | text | |] | e |] eqn:Hget;
    try (unfold loop_body, receive_json, bind, emit, lift; rewrite Hin, Hget; simpl;
         now apply (loop_changes_log [EvReceive ws])).
  assert (Hpre : loop_changes w (log_all (EvReceive ws :: pipeline_calls text) w))
    by (apply loop_changes_log; simpl; apply pipeline_calls_no_close).
  destruct (moderation pipeline text) as [[|] | e |] eqn:Hmod;
    [ rewrite (loop_body_text env ws u data text w Hin Hget), Hmod
    | idtac
    | rewrite (loop_body_text env ws u data text w Hin Hget), Hmod; exact Hpre
    | rewrite (loop_body_text env ws u data text w Hin Hget), Hmod; exact Hpre ].
  - unfold send_json. destruct (channel env ws) as [e |]; simpl.
    + eapply loop_changes_trans; [exact Hpre |].
      now apply (loop_changes_log [EvSendFailed ws flagged_feedback e]).
    + eapply loop_changes_trans; [exact Hpre |].
      now apply (loop_changes_log [EvSent ws flagged_feedback]).
  - rewrite (loop_body_accepted env ws u data text w Hin Hget Hmod).
    assert (Hadd : loop_changes w (after_add iso env ws u text w)).
    { loop_changes_split; simpl; try reflexivity.
      - now exists [accepted_entry iso env u text].
      - exists []. now rewrite app_nil_r.
      - eexists. rewrite <- app_assoc. split; [reflexivity | reflexivity].
      - auto. }
    assert (Hcommit : loop_changes w (after_commit iso env ws u text w)).
    { loop_changes_split; simpl; try reflexivity.
      - now exists [accepted_entry iso env u text].
      - now eexists.
      - eexists. rewrite <- !app_assoc. split; [reflexivity | reflexivity].
      - apply commit_keeps_ascending. }
    destruct (commit_fault env) as [e |]; simpl.
    + eapply loop_changes_trans; [exact Hadd |].
      now apply (loop_changes_log [EvDbCommit false]).
    + destruct (refresh_fault env) as [e |]; simpl.
      * eapply loop_changes_trans; [exact Hcommit |].
        now apply (loop_changes_log [EvDbRefresh false]).
      * rewrite broadcast_run.
        eapply loop_changes_trans; [exact Hcommit |].
        eapply loop_changes_trans; [| apply send_each_changes].
        unfold log. rewrite log_all_app.
        now apply (loop_changes_log [EvDbRefresh true; EvBroadcast _]).
Qed.

Lemma receive_loop_changes (script : list Env) (ws : WebSocket) (u : user) :
  forall w : World,
    loop_changes w (snd (receive_loop pipeline iso script ws u w)).
Proof.
  induction script as [| env script IH]; intro w; simpl.
  - now apply (loop_changes_log [EvReceive ws]).
  - unfold bind.
    pose proof (loop_body_changes env ws u w) as Hbody.
    destruct (loop_body pipeline iso env ws u w) as [[[] | e |] w1]; simpl in *;
      try exact Hbody.
    eapply loop_changes_trans; [exact Hbody | apply IH].
Qed.

(** The loop only ever ends by an exception or waits for the next frame. *)
Lemma receive_loop_never_returns (script : list Env) (ws : WebSocket) (u : user) :
  forall w : World, fst (receive_loop pipeline iso script ws u w) <> Ok tt.
Proof.
  induction script as [| env script IH]; intro w; simpl.
  - discriminate.
  - unfold bind.
    destruct (loop_body pipeline iso env ws u w) as [[[] | e |] w1]; simpl;
      try discriminate.
    apply IH.
Qed.

(** *** A rejected message *)

(** C5. When the sender's channel takes the send, a message classified
    Reject yields exactly one send in its iteration, the feedback
    [{"error": "Message flagged as inappropriate."}] to the sending
    connection: no other connection is sent anything, nothing is appended to
    [chat_messages] or to the database, no broadcast starts, no connection is
    closed or unregistered, and the loop goes on to the next frame. *)
Theorem rejected_message_feedback :
  forall (env : Env) (ws : WebSocket) (u : user) (data : json)
         (text : string) (w : World),
    incoming env = Ok data ->
    get_content data = Ok (JStr text) ->
    moderation pipeline text = Ok true ->
    channel env ws = None ->
    exists (evs : list event) (w' : World),
      loop_body pipeline iso env ws u w = (Ok tt, w') /\
      trace w' = trace w ++ evs /\
      filter is_send evs = [EvSent ws flagged_feedback] /\
      delivered ws evs = [flagged_feedback] /\
      (forall c, c <> ws -> delivered c evs = []) /\
      existsb is_persist evs = false /\
      existsb is_broadcast evs = false /\
      existsb is_close evs = false /\
      active_connections w' = active_connections w /\
      chat_messages w' = chat_messages w /\
      messages w' = messages w /\
      db_new w' = db_new w /\
      (forall rest,
         receive_loop pipeline iso (env :: rest) ws u w
           = receive_loop pipeline iso rest ws u w').
Proof.
  intros env ws u data text w Hin Hget Hmod Hch.
  assert (Hrun : loop_body pipeline iso env ws u w
                 = (Ok tt, log_all (EvReceive ws :: pipeline_calls text
                                      ++ [EvSent ws flagged_feedback]) w)).
  { rewrite (loop_body_text env ws u data text w Hin Hget), Hmod.
    unfold send_json. rewrite Hch. unfold emit, log.
    rewrite log_all_app. reflexivity. }
  unfold pipeline_calls in Hrun.
  destruct (any_banned banned_words (lower text));
    (eexists; eexists; split; [exact Hrun |]); simpl;
    (repeat split; try reflexivity;
     [ unfold delivered; now rewrite Nat.eqb_refl
     | intros c Hc; apply Nat.eqb_neq in Hc; unfold delivered;
       now rewrite Nat.eqb_sym, Hc
     | intro rest; unfold bind; now rewrite Hrun ]).
Qed.

(** *** An accepted message *)

(** C1 (as the code has it). For an accepted message the row is added,
    committed and refreshed, in that order, before [broadcast] is entered.
    When the commit (or the refresh) raises, [broadcast] is not entered for
    that message and nothing at all is sent, to the sender or to anyone
    else: the exception leaves [loop_body] and ends the receive loop, the
    frames still to come unread. *)
Theorem persist_then_broadcast :
  forall (env : Env) (ws : WebSocket) (u : user) (data : json)
         (text : string) (w : World),
    incoming env = Ok data ->
    get_content data = Ok (JStr text) ->
    moderation pipeline text = Ok false ->
    let entry := accepted_entry iso env u text in
    let row := accepted_row env u text in
    (commit_fault env = None -> refresh_fault env = None ->
       exists w1 : World,
         loop_body pipeline iso env ws u w = broadcast env entry w1 /\
         trace w1 = trace w ++ [EvReceive ws; EvPipeline text; EvChatAppend entry;
                                EvDbAdd row; EvDbCommit true; EvDbRefresh true] /\
         messages w1
           = messages w ++ assign_ids (next_id (messages w)) (db_new w ++ [row])) /\
    (forall e, commit_fault env = Some e ->
       exists w2 : World,
         loop_body pipeline iso env ws u w = (Raise e, w2) /\
         trace w2 = trace w ++ [EvReceive ws; EvPipeline text; EvChatAppend entry;
                                EvDbAdd row; EvDbCommit false] /\
         messages w2 = messages w /\
         (forall rest,
            receive_loop pipeline iso (env :: rest) ws u w = (Raise e, w2))) /\
    (forall e, commit_fault env = None -> refresh_fault env = Some e ->
       exists w3 : World,
         loop_body pipeline iso env ws u w = (Raise e, w3) /\
         trace w3 = trace w ++ [EvReceive ws; EvPipeline text; EvChatAppend entry;
                                EvDbAdd row; EvDbCommit true; EvDbRefresh false] /\
         (forall rest,
            receive_loop pipeline iso (env :: rest) ws u w = (Raise e, w3))).
Proof.
  intros env ws u data text w Hin Hget Hmod entry row.
  pose proof (loop_body_accepted env ws u data text w Hin Hget Hmod) as Hrun.
  repeat split.
  - intros Hc Hr. rewrite Hc, Hr in Hrun. eexists. split; [exact Hrun |].
    simpl. rewrite <- !app_assoc. split; reflexivity.
  - intros e Hc. rewrite Hc in Hrun. eexists. split; [exact Hrun |].
    simpl. rewrite <- !app_assoc. repeat split.
    intro rest. simpl. unfold bind at 1. now rewrite Hrun.
  - intros e Hc Hr. rewrite Hc, Hr in Hrun. eexists. split; [exact Hrun |].
    simpl. rewrite <- !app_assoc. repeat split.
    intro rest. simpl. unfold bind at 1. now rewrite Hrun.
Qed.

(** [disconnect] and [db.close()] do not touch [chat_messages]. *)
Lemma handlers_keep_chat_messages (ws : WebSocket) (body : M unit) (w : World) :
  chat_messages
    (snd (try_finally (try_except_disconnect body (disconnect ws)) db_close w))
  = chat_messages (snd (body w)).
Proof.
  unfold try_finally, try_except_disconnect.
  destruct (body w) as [[[] | e |] w1]; simpl; try reflexivity.
  destruct e; simpl; try reflexivity.
  destruct (disconnect_returns ws w1) as [w2 [Hrun [_ [_ [Hchat _]]]]].
  rewrite Hrun. simpl. exact Hchat.
Qed.

(** C10. For an accepted message the entry (sender, content, timestamp) is
    appended to [chat_messages] before [db.add] and [db.commit] are reached,
    whatever the commit does afterwards; when the commit raises, the entry is
    still the last element of [chat_messages], and it stays in the list
    through the rest of the session, its [except] and [finally] clauses
    included. *)
Theorem chat_messages_appended_first :
  forall (env : Env) (ws : WebSocket) (u : user) (data : json)
         (text : string) (w : World),
    incoming env = Ok data ->
    get_content data = Ok (JStr text) ->
    moderation pipeline text = Ok false ->
    let entry := accepted_entry iso env u text in
    let row := accepted_row env u text in
    (exists (r : result unit) (w' : World) (later : list event),
       loop_body pipeline iso env ws u w = (r, w') /\
       trace w' = trace w ++ [EvReceive ws; EvPipeline text; EvChatAppend entry;
                              EvDbAdd row] ++ later /\
       existsb is_persist [EvReceive ws; EvPipeline text] = false /\
       chat_messages w' = chat_messages w ++ [entry] /\
       (forall e, commit_fault env = Some e ->
          r = Raise e /\ later = [EvDbCommit false] /\ messages w' = messages w)) /\
    (forall rest, exists more,
       chat_messages
         (snd (try_finally
                 (try_except_disconnect
                    (receive_loop pipeline iso (env :: rest) ws u)
                    (disconnect ws))
                 db_close w))
       = chat_messages w ++ entry :: more).
Proof.
  intros env ws u data text w Hin Hget Hmod entry row.
  pose proof (loop_body_accepted env ws u data text w Hin Hget Hmod) as Hrun.
  assert (Hbody : exists (r : result unit) (w' : World) (later : list event),
       loop_body pipeline iso env ws u w = (r, w') /\
       trace w' = trace w ++ [EvReceive ws; EvPipeline text; EvChatAppend entry;
                              EvDbAdd row] ++ later /\
       chat_messages w' = chat_messages w ++ [entry] /\
       (forall e, commit_fault env = Some e ->
          r = Raise e /\ later = [EvDbCommit false] /\ messages w' = messages w)).
  { destruct (commit_fault env) as [e |].
    - do 3 eexists. split; [exact Hrun |]. simpl. rewrite <- !app_assoc.
      split; [reflexivity |]. split; [reflexivity |].
      intros e' [= <-]. repeat split.
    - destruct (refresh_fault env) as [e |].
      + do 3 eexists. split; [exact Hrun |]. simpl. rewrite <- !app_assoc.
        split; [reflexivity |]. split; [reflexivity | discriminate].
      + rewrite broadcast_run in Hrun.
        match type of Hrun with
        | _ = send_each ?e ?l ?m ?w0 =>
            destruct (send_each_only_logs e m l w0) as [evs [Hevs _]];
            destruct (send_each e l m w0) as [r w'] eqn:Hsend
        end.
        simpl in Hevs. subst w'.
        do 3 eexists. split; [exact Hrun |]. simpl. rewrite <- !app_assoc.
        split; [reflexivity |]. split; [reflexivity | discriminate]. }
  destruct Hbody as [r [w' [later [Hlb [Htr [Hchat Hfail]]]]]].
  split.
  - exists r, w', later.
    split; [exact Hlb |]. split; [exact Htr |]. split; [reflexivity |].
    split; [exact Hchat | exact Hfail].
  - intro rest. rewrite handlers_keep_chat_messages.
    simpl. unfold bind at 1. rewrite Hlb.
    destruct r as [[] | e |]; simpl.
    + destruct (receive_loop_changes rest ws u w') as [_ [_ [[more Hmore] _]]].
      exists more. rewrite Hmore, Hchat. now rewrite <- app_assoc.
    + exists []. exact Hchat.
    + exists []. exact Hchat.
Qed.

(** *** Payloads without a usable content *)

(** C7 (as the code has it). A frame that does not decode, a JSON value that
    is not an object, and an object whose [content] is not a string are not
    processed as messages: the iteration raises (the decoder's exception, or
    AttributeError) with nothing sent and nothing stored, and the exception
    ends the receive loop.  An object that merely lacks the [content] field
    is no violation: [get] supplies the empty string, and the frame is
    handled exactly as the message [{"content": ""}] is. *)
Theorem payload_without_content :
  forall (env : Env) (ws : WebSocket) (u : user) (w : World),
    (forall e, incoming env = Raise e ->
       loop_body pipeline iso env ws u w = (Raise e, log (EvReceive ws) w) /\
       forall rest,
         receive_loop pipeline iso (env :: rest) ws u w
           = (Raise e, log (EvReceive ws) w)) /\
    (forall data, incoming env = Ok data ->
       (forall text, get_content data <> Ok (JStr text)) ->
       loop_body pipeline iso env ws u w
         = (Raise AttributeError, log (EvReceive ws) w) /\
       forall rest,
         receive_loop pipeline iso (env :: rest) ws u w
           = (Raise AttributeError, log (EvReceive ws) w)) /\
    (forall fields, incoming env = Ok (JObj fields) ->
       dict_get fields "content" = None ->
       loop_body pipeline iso env ws u w
         = loop_body pipeline iso (with_incoming (Ok (frame "")) env) ws u w).
Proof.
  intros env ws u w. split; [| split].
  - intros e Hin.
    assert (Hrun : loop_body pipeline iso env ws u w
                   = (Raise e, log (EvReceive ws) w)).
    { unfold loop_body, receive_json, bind, emit, lift. now rewrite Hin. }
    split; [exact Hrun |]. intro rest. simpl. unfold bind at 1. now rewrite Hrun.
  - intros data Hin Hnot.
    assert (Hrun : loop_body pipeline iso env ws u w
                   = (Raise AttributeError, log (EvReceive ws) w)).
    { unfold loop_body, receive_json, bind, emit, lift. rewrite Hin.
      destruct data as [| b | n | f | s | items | fields]; try reflexivity.
      simpl in *.
      destruct (dict_get fields "content") as [[| b | n | f | s | items | fs] |];
        try reflexivity.
      - now contradiction (Hnot s).
      - now contradiction (Hnot ""). }
    split; [exact Hrun |]. intro rest. simpl. unfold bind at 1. now rewrite Hrun.
  - intros fields Hin Hnone.
    assert (Hget : get_content (JObj fields) = Ok (JStr ""))
      by (simpl; now rewrite Hnone).
    destruct (moderation pipeline "") as [[|] | e |] eqn:Hmod.
    + rewrite (loop_body_text env ws u (JObj fields) "" w Hin Hget).
      rewrite (loop_body_text (with_incoming (Ok (frame "")) env) ws u
                 (frame "") "" w eq_refl eq_refl).
      now rewrite Hmod.
    + rewrite (loop_body_accepted env ws u (JObj fields) "" w Hin Hget Hmod).
      rewrite (loop_body_accepted (with_incoming (Ok (frame "")) env) ws u
                 (frame "") "" w eq_refl eq_refl Hmod).
      simpl. destruct (commit_fault env); [reflexivity |].
      destruct (refresh_fault env); [reflexivity |].
      rewrite !broadcast_run. now apply send_each_same_channel.
    + rewrite (loop_body_text env ws u (JObj fields) "" w Hin Hget).
      rewrite (loop_body_text (with_incoming (Ok (frame "")) env) ws u
                 (frame "") "" w eq_refl eq_refl).
      now rewrite Hmod.
    + rewrite (loop_body_text env ws u (JObj fields) "" w Hin Hget).
      rewrite (loop_body_text (with_incoming (Ok (frame "")) env) ws u
                 (frame "") "" w eq_refl eq_refl).
      now rewrite Hmod.
Qed.

(** *** The end of a session *)

(** On [WebSocketDisconnect] the endpoint unregisters the connection and
    closes the database session; it returns normally. *)
Lemma teardown_on_disconnect (ws : WebSocket) (body : M unit) (w w1 : World) :
  body w = (Raise WebSocketDisconnect, w1) ->
  exists w2,
    disconnect ws w1 = (Ok tt, w2) /\
    try_finally (try_except_disconnect body (disconnect ws)) db_close w
      = (Ok tt, set_db (messages w2) [] false (log EvDbClose w2)).
Proof.
  intro Hbody.
  destruct (disconnect_returns ws w1) as [w2 [Hdis _]].
  exists w2. split; [exact Hdis |].
  unfold try_finally, try_except_disconnect. rewrite Hbody, Hdis. reflexivity.
Qed.

(** On any other exception only the [finally] clause runs: the database
    session is closed, the registry is not touched, and the exception leaves
    the endpoint. *)
Lemma teardown_on_other_exception (ws : WebSocket) (body : M unit)
    (w w1 : World) (e : exn) :
  body w = (Raise e, w1) ->
  e <> WebSocketDisconnect ->
  try_finally (try_except_disconnect body (disconnect ws)) db_close w
    = (Raise e, set_db (messages w1) [] false (log EvDbClose w1)).
Proof.
  intros Hbody Hne.
  unfold try_finally, try_except_disconnect. rewrite Hbody.
  destruct e; try reflexivity. now contradiction Hne.
Qed.

(** A session that a failure other than a disconnect has ended is still in
    the registry afterwards. *)
Lemma connection_outlives_failed_session (fake_users_db : list (string * user))
    (token : string) (more : list string) (u : user) (ws : WebSocket)
    (script : list Env) (w : World) (e : exn) :
  fake_decode_token fake_users_db token = Some u ->
  fst (websocket_endpoint pipeline iso fake_users_db None ws
         (Some (token :: more)) script w) = Raise e ->
  e <> WebSocketDisconnect ->
  In ws (active_connections
           (snd (websocket_endpoint pipeline iso fake_users_db None ws
                   (Some (token :: more)) script w))).
Proof.
  intros Huser Hres Hne.
  unfold websocket_endpoint in *. rewrite Huser in *.
  unfold bind at 1 in Hres. unfold bind at 1.
  rewrite connect_run in *.
  unfold bind at 1 in Hres. unfold bind at 1.
  unfold SessionLocal, bind, emit, modify in *.
  unfold try_finally, try_except_disconnect in *.
  match goal with
  | |- context [receive_loop pipeline iso script ws u ?w0] =>
      pose proof (receive_loop_changes script ws u w0) as [Hconns _];
      pose proof (receive_loop_never_returns script ws u w0) as Hnever;
      destruct (receive_loop pipeline iso script ws u w0) as [r w1] eqn:Hloop
  end.
  simpl in Hconns, Hnever.
  destruct r as [[] | e' |]; simpl in *.
  - now contradiction Hnever.
  - destruct e'; simpl in *;
      try (rewrite Hconns; apply in_or_app; right; now left).
    destruct (disconnect_returns ws w1) as [w2 [Hdis _]].
    rewrite Hdis in *. simpl in Hres. discriminate Hres.
  - discriminate Hres.
Qed.


End Loop.

(** ** The receive loop on concrete sessions *)

(** "Buy our scam product" from connection 1, with connection 2 listening. *)
Lemma rejected_message_feedback_witness :
  exists (evs : list event) (w' : World),
    loop_body harsh_pipeline plain_isoformat
      (fair (Ok (frame "Buy our scam product"))) 1 alice (with_connections [1; 2])
      = (Ok tt, w') /\
    trace w' = trace (with_connections [1; 2]) ++ evs /\
    filter is_send evs = [EvSent 1 flagged_feedback] /\
    delivered 1 evs = [flagged_feedback] /\
    (forall c, c <> 1 -> delivered c evs = []) /\
    existsb is_persist evs = false /\
    existsb is_broadcast evs = false /\
    existsb is_close evs = false /\
    active_connections w' = active_connections (with_connections [1; 2]) /\
    chat_messages w' = chat_messages (with_connections [1; 2]) /\
    messages w' = messages (with_connections [1; 2]) /\
    db_new w' = db_new (with_connections [1; 2]) /\
    (forall rest,
       receive_loop harsh_pipeline plain_isoformat
         (fair (Ok (frame "Buy our scam product")) :: rest) 1 alice
         (with_connections [1; 2])
       = receive_loop harsh_pipeline plain_isoformat rest 1 alice w').
Proof.
  apply (rejected_message_feedback harsh_pipeline plain_isoformat
           (fair (Ok (frame "Buy our scam product"))) 1 alice
           (frame "Buy our scam product") "Buy our scam product"
           (with_connections [1; 2]));
    reflexivity.
Defined.

(** "Hello everyone" from connection 1 when the commit fails. *)
Lemma persist_then_broadcast_witness :
  exists w2 : World,
    loop_body calm_pipeline plain_isoformat
      (with_failing_commit (Ok (frame "Hello everyone"))) 1 alice
      (with_connections [1; 2])
      = (Raise SQLAlchemyError, w2) /\
    trace w2 = trace (with_connections [1; 2]) ++
      [EvReceive 1; EvPipeline "Hello everyone";
       EvChatAppend (accepted_entry plain_isoformat
                       (with_failing_commit (Ok (frame "Hello everyone")))
                       alice "Hello everyone");
       EvDbAdd (accepted_row (with_failing_commit (Ok (frame "Hello everyone")))
                  alice "Hello everyone");
       EvDbCommit false] /\
    messages w2 = messages (with_connections [1; 2]) /\
    (forall rest,
       receive_loop calm_pipeline plain_isoformat
         (with_failing_commit (Ok (frame "Hello everyone")) :: rest) 1 alice
         (with_connections [1; 2])
       = (Raise SQLAlchemyError, w2)).
Proof.
  apply (proj1 (proj2
           (persist_then_broadcast calm_pipeline plain_isoformat
              (with_failing_commit (Ok (frame "Hello everyone"))) 1 alice
              (frame "Hello everyone") "Hello everyone"
              (with_connections [1; 2]) eq_refl eq_refl eq_refl))
           SQLAlchemyError eq_refl).
Defined.

(** C1 (as the specification has it) fails: the failed commit is reported to
    nobody and ends the session's loop, the second frame never read. *)
Lemma append_failure_reported_counterexample :
  receive_loop calm_pipeline plain_isoformat
    [with_failing_commit (Ok (frame "Hello everyone"));
     fair (Ok (frame "Anyone there?"))] 1 alice (with_connections [1; 2])
  = (Raise SQLAlchemyError,
     mkWorld [1; 2]
       [mkEntry "Student One" "Hello everyone" "2024-05-01T12:00:00Z"]
       []
       [mkNew "Student One" "Hello everyone" 7]
       true
       [EvReceive 1; EvPipeline "Hello everyone";
        EvChatAppend (mkEntry "Student One" "Hello everyone" "2024-05-01T12:00:00Z");
        EvDbAdd (mkNew "Student One" "Hello everyone" 7);
        EvDbCommit false]) /\
  ~ append_failure_reported calm_pipeline plain_isoformat
      (with_failing_commit (Ok (frame "Hello everyone"))) 1 alice
      (with_connections [1; 2]).
Proof.
  split; [reflexivity |].
  intros [w' [Hrun _]]. discriminate Hrun.
Qed.

(** "Hello everyone" again: in the list before the commit, and still there
    after the commit has failed. *)
Lemma chat_messages_appended_first_witness :
  (exists (r : result unit) (w' : World) (later : list event),
     loop_body calm_pipeline plain_isoformat
       (with_failing_commit (Ok (frame "Hello everyone"))) 1 alice
       (with_connections [1; 2]) = (r, w') /\
     trace w' = trace (with_connections [1; 2]) ++
       [EvReceive 1; EvPipeline "Hello everyone";
        EvChatAppend (mkEntry "Student One" "Hello everyone" "2024-05-01T12:00:00Z");
        EvDbAdd (mkNew "Student One" "Hello everyone" 7)] ++ later /\
     existsb is_persist [EvReceive 1; EvPipeline "Hello everyone"] = false /\
     chat_messages w' = chat_messages (with_connections [1; 2]) ++
       [mkEntry "Student One" "Hello everyone" "2024-05-01T12:00:00Z"] /\
     (forall e, commit_fault (with_failing_commit (Ok (frame "Hello everyone")))
                = Some e ->
        r = Raise e /\ later = [EvDbCommit false] /\
        messages w' = messages (with_connections [1; 2]))) /\
  (forall rest, exists more,
     chat_messages
       (snd (try_finally
               (try_except_disconnect
                  (receive_loop calm_pipeline plain_isoformat
                     (with_failing_commit (Ok (frame "Hello everyone")) :: rest)
                     1 alice)
                  (disconnect 1))
               db_close (with_connections [1; 2])))
     = chat_messages (with_connections [1; 2]) ++
       mkEntry "Student One" "Hello everyone" "2024-05-01T12:00:00Z" :: more).
Proof.
  apply (chat_messages_appended_first calm_pipeline plain_isoformat
           (with_failing_commit (Ok (frame "Hello everyone"))) 1 alice
           (frame "Hello everyone") "Hello everyone" (with_connections [1; 2]));
    reflexivity.
Defined.

(** The payloads "not json", [[1]] and [{}] on connection 1. *)
Lemma payload_without_content_witness :
  loop_body calm_pipeline plain_isoformat (fair (Raise JSONDecodeError)) 1 alice
    (with_connections [1; 2])
    = (Raise JSONDecodeError, log (EvReceive 1) (with_connections [1; 2])) /\
  loop_body calm_pipeline plain_isoformat (fair (Ok (JArr [JInt 1]))) 1 alice
    (with_connections [1; 2])
    = (Raise AttributeError, log (EvReceive 1) (with_connections [1; 2])) /\
  loop_body calm_pipeline plain_isoformat (fair (Ok (JObj []))) 1 alice
    (with_connections [1; 2])
    = loop_body calm_pipeline plain_isoformat
        (with_incoming (Ok (frame "")) (fair (Ok (JObj [])))) 1 alice
        (with_connections [1; 2]).
Proof.
  split; [| split].
  - apply (proj1 (payload_without_content calm_pipeline plain_isoformat
                    (fair (Raise JSONDecodeError)) 1 alice
                    (with_connections [1; 2]))
             JSONDecodeError eq_refl).
  - apply (proj1 (proj2 (payload_without_content calm_pipeline plain_isoformat
                           (fair (Ok (JArr [JInt 1]))) 1 alice
                           (with_connections [1; 2])))
             (JArr [JInt 1]) eq_refl).
    intros text Habs. discriminate Habs.
  - apply (proj2 (proj2 (payload_without_content calm_pipeline plain_isoformat
                           (fair (Ok (JObj []))) 1 alice
                           (with_connections [1; 2])))
             [] eq_refl eq_refl).
Defined.

(** C7 (as the specification has it) fails on the payload [{}]: nothing is
    closed, and a message with empty content is stored and broadcast. *)
Lemma missing_content_closes_counterexample :
  loop_body calm_pipeline plain_isoformat (fair (Ok (JObj []))) 1 alice
    (with_connections [1; 2])
  = (Ok tt,
     mkWorld [1; 2]
       [mkEntry "Student One" "" "2024-05-01T12:00:00Z"]
       [Message.mk 1 "Student One" "" 7]
       []
       true
       [EvReceive 1; EvPipeline "";
        EvChatAppend (mkEntry "Student One" "" "2024-05-01T12:00:00Z");
        EvDbAdd (mkNew "Student One" "" 7);
        EvDbCommit true; EvDbRefresh true;
        EvBroadcast (mkEntry "Student One" "" "2024-05-01T12:00:00Z");
        EvSent 1 (WMessage (mkEntry "Student One" "" "2024-05-01T12:00:00Z"));
        EvSent 2 (WMessage (mkEntry "Student One" "" "2024-05-01T12:00:00Z"))]) /\
  ~ missing_content_closes calm_pipeline plain_isoformat (fair (Ok (JObj [])))
      1 alice (with_connections [1; 2]).
Proof.
  split; [reflexivity |].
  intros [r [w' [code [Hrun [_ [Hchat _]]]]]].
  injection Hrun as _ <-. discriminate Hchat.
Qed.

(** C4. A text frame that is not JSON ends the session of connection 1 with
    the decoder's exception: the [finally] clause closes the database
    session, but connection 1 is still in the manager's list, where the next
    broadcast will find it.  A disconnect at the same point removes it. *)
Theorem session_left_registered_after_error :
  websocket_endpoint calm_pipeline plain_isoformat users None 1
    (Some ["student1@srm.edu.in"]) [fair (Raise JSONDecodeError)] empty_world
  = (Raise JSONDecodeError,
     mkWorld [1] [] [] [] false
       [EvAccept 1; EvSessionLocal; EvReceive 1; EvDbClose]) /\
  ~ terminated_session_cleaned 1
      (websocket_endpoint calm_pipeline plain_isoformat users None 1
         (Some ["student1@srm.edu.in"]) [fair (Raise JSONDecodeError)]
         empty_world) /\
  websocket_endpoint calm_pipeline plain_isoformat users None 1
    (Some ["student1@srm.edu.in"]) [fair (Raise WebSocketDisconnect)] empty_world
  = (Ok tt,
     mkWorld [] [] [] [] false
       [EvAccept 1; EvSessionLocal; EvReceive 1; EvDbClose]).
Proof.
  split; [reflexivity | split; [| reflexivity]].
  intro Hclean. destruct Hclean as [Hgone _].
  - discriminate.
  - apply Hgone. simpl. now left.
Qed.

(** ** Search *)

Lemma like_star (p text : string) :
  pattern_compare (String "%" p) text =
    if pattern_compare p text then true
    else match text with
         | EmptyString => false
         | String _ text' => pattern_compare (String "%" p) text'
         end.
Proof. destruct text; reflexivity. Qed.

Lemma like_percent (text : string) : pattern_compare "%" text = true.
Proof.
  induction text as [| c text IH]; [reflexivity |].
  rewrite like_star. simpl. exact IH.
Qed.

Lemma like_literal (c : ascii) (p text : string) :
  Ascii.eqb c "%" = false ->
  Ascii.eqb c "_" = false ->
  pattern_compare (String c p) text =
    match text with
    | EmptyString => false
    | String d text' => if Ascii.eqb d c then pattern_compare p text' else false
    end.
Proof.
  intros Hp Hu. simpl. rewrite Hp, Hu. reflexivity.
Qed.

Lemma wildcard_free_cons (c : ascii) (s : string) :
  wildcard_free (String c s) = true ->
  Ascii.eqb c "%" = false /\ Ascii.eqb c "_" = false /\ wildcard_free s = true.
Proof.
  simpl. intro H.
  apply andb_true_iff in H. destruct H as [H Hs].
  apply andb_true_iff in H. destruct H as [Hp Hu].
  apply negb_true_iff in Hp. apply negb_true_iff in Hu. auto.
Qed.

(** A pattern of plain characters followed by [%] matches the texts that
    start with these characters. *)
Lemma like_plain_prefix (k : string) :
  wildcard_free k = true ->
  forall text, pattern_compare (k ++ "%") text = String.prefix k text.
Proof.
  induction k as [| c k IH]; intros Hfree text.
  - simpl String.append. rewrite like_percent. now destruct text.
  - apply wildcard_free_cons in Hfree. destruct Hfree as [Hp [Hu Hk]].
    change (String c k ++ "%")%string with (String c (k ++ "%")%string).
    rewrite like_literal by assumption.
    destruct text as [| d text]; [reflexivity |].
    simpl String.prefix.
    destruct (ascii_dec c d) as [<- | Hne].
    + rewrite Ascii.eqb_refl. now apply IH.
    + destruct (Ascii.eqb_spec d c) as [-> | _]; [now contradiction Hne | reflexivity].
Qed.

(** [%k%] with a plain [k] matches the texts in which [k] occurs. *)
Lemma like_plain_substring (k : string) :
  wildcard_free k = true ->
  forall text, pattern_compare ("%" ++ k ++ "%") text = str_in k text.
Proof.
  intros Hfree text.
  change ("%" ++ k ++ "%")%string with (String "%" (k ++ "%")%string).
  induction text as [| c text IH].
  - rewrite like_star, like_plain_prefix by assumption. simpl.
    now destruct (String.prefix k "").
  - rewrite like_star, like_plain_prefix by assumption.
    simpl str_in. now rewrite IH.
Qed.

Lemma lower_ascii_wildcard (c : ascii) :
  Ascii.eqb (lower_ascii c) "%" = Ascii.eqb c "%" /\
  Ascii.eqb (lower_ascii c) "_" = Ascii.eqb c "_".
Proof.
  destruct c as [[] [] [] [] [] [] [] []]; split; reflexivity.
Qed.

Lemma lower_wildcard_free (s : string) :
  wildcard_free (lower s) = wildcard_free s.
Proof.
  induction s as [| c s IH]; [reflexivity |].
  simpl. destruct (lower_ascii_wildcard c) as [-> ->]. now rewrite IH.
Qed.

Lemma lower_append (a b : string) :
  lower (a ++ b) = (lower a ++ lower b)%string.
Proof.
  induction a as [| c a IH]; [reflexivity |]. simpl. now rewrite IH.
Qed.

(** [lower] keeps the size of a text and the place of its first NUL. *)
Lemma lower_ascii_size (c : ascii) :
  Nat.ltb (nat_of_ascii (lower_ascii c)) 128 = Nat.ltb (nat_of_ascii c) 128 /\
  Ascii.eqb (lower_ascii c) Ascii.zero = Ascii.eqb c Ascii.zero.
Proof.
  destruct c as [[] [] [] [] [] [] [] []]; split; reflexivity.
Qed.

Lemma utf8_length_lower (s : string) : utf8_length (lower s) = utf8_length s.
Proof.
  induction s as [| c s IH]; [reflexivity |].
  simpl. destruct (lower_ascii_size c) as [-> _]. now rewrite IH.
Qed.

Lemma utf8_length_append (a b : string) :
  utf8_length (a ++ b) = (utf8_length a + utf8_length b)%N.
Proof.
  induction a as [| c a IH]; simpl; [reflexivity |]. rewrite IH. lia.
Qed.

Lemma nul_free_lower (s : string) : nul_free (lower s) = nul_free s.
Proof.
  induction s as [| c s IH]; [reflexivity |].
  simpl. destruct (lower_ascii_size c) as [_ ->]. now rewrite IH.
Qed.

Lemma nul_free_append (a b : string) :
  nul_free (a ++ b) = nul_free a && nul_free b.
Proof.
  induction a as [| c a IH]; simpl; [reflexivity |].
  rewrite IH. now rewrite andb_assoc.
Qed.

Lemma c_string_nul_free (s : string) : nul_free s = true -> c_string s = s.
Proof.
  induction s as [| c s IH]; simpl; [reflexivity |]. intro H.
  apply andb_true_iff in H. destruct H as [Hc Hs].
  apply negb_true_iff in Hc. rewrite Hc. now rewrite IH.
Qed.

(** A condition that errs on no row selects like [filter]. *)
Lemma select_where_total (condition : Message.t -> option bool)
    (f : Message.t -> bool) (rows : list Message.t) :
  (forall msg, In msg rows -> condition msg = Some (f msg)) ->
  select_where condition rows = Ok (filter f rows).
Proof.
  induction rows as [| msg rows IH]; intro Hc; simpl; [reflexivity |].
  rewrite (Hc msg (or_introl eq_refl)).
  rewrite IH by (intros; apply Hc; now right).
  reflexivity.
Qed.

Lemma select_where_ext (c1 c2 : Message.t -> option bool)
    (rows : list Message.t) :
  (forall msg, c1 msg = c2 msg) ->
  select_where c1 rows = select_where c2 rows.
Proof.
  intro Hc. induction rows as [| msg rows IH]; simpl; [reflexivity |].
  now rewrite Hc, IH.
Qed.

(** Apart from the wildcards, NUL and the size limit of the pattern, the
    query is the substring search: for a keyword of plain characters within
    the limit, over contents without NUL, it selects the rows whose content
    contains the keyword, letter case aside. *)
Lemma query_ilike_plain_keyword (keyword : string) (rows : list Message.t) :
  wildcard_free keyword = true ->
  nul_free keyword = true ->
  (utf8_length keyword <= 49998)%N ->
  Forall (fun msg => nul_free (Message.content msg) = true) rows ->
  query_ilike keyword rows = Ok (filter (contains_keyword keyword) rows).
Proof.
  intros Hfree Hnul Hsize Hrows. unfold query_ilike.
  apply select_where_total. intros msg Hin.
  rewrite Forall_forall in Hrows. specialize (Hrows msg Hin).
  unfold ilike, like, contains_keyword.
  rewrite utf8_length_lower, !utf8_length_append.
  replace (N.ltb SQLITE_MAX_LIKE_PATTERN_LENGTH _) with false
    by (symmetry; apply N.ltb_ge; unfold SQLITE_MAX_LIKE_PATTERN_LENGTH;
        simpl utf8_length; lia).
  rewrite !c_string_nul_free
    by (rewrite ?nul_free_lower, ?nul_free_append, ?Hnul, ?Hrows; reflexivity).
  rewrite !lower_append. change (lower "%") with "%".
  rewrite like_plain_substring by (now rewrite lower_wildcard_free).
  reflexivity.
Qed.

(** C6. The keyword goes into the [LIKE] pattern as it is, so an underscore
    in it stands for any one character and a percent sign for any run: the
    search for "_" returns every stored message with a content, although
    none of them contains an underscore, where a substring search returns
    none. *)
Theorem search_wildcard_keyword_matches_everything :
  search_messages plain_isoformat users "student1@srm.edu.in" "_"
    (stored three_messages)
  = (Ok (map (format_result plain_isoformat) three_messages),
     stored three_messages) /\
  filter (contains_keyword "_") three_messages = [] /\
  ~ search_is_substring_match.
Proof.
  split; [reflexivity | split; [reflexivity |]].
  intro Hspec. specialize (Hspec "_" three_messages). discriminate Hspec.
Qed.

(* ================================================================== *)
(** * Further properties *)

(** ** Connecting *)

(** X1. A connection attempt without a token, with an empty token list, or
    whose first token names no user is refused: the websocket is closed with
    code 1008 and the endpoint returns; the connection is not accepted and
    not registered, no database session is opened, and none of the frames
    the client might send is read. *)
Theorem unauthenticated_connection_refused :
  forall (pipeline : string -> result sentiment) (iso : datetime -> string)
         (fake_users_db : list (string * user)) (handshake : option exn)
         (ws : WebSocket) (token_list : option (list string))
         (script : list Env) (w : World),
    (token_list = None \/ token_list = Some [] \/
     exists token more, token_list = Some (token :: more) /\
                        fake_decode_token fake_users_db token = None) ->
    websocket_endpoint pipeline iso fake_users_db handshake ws token_list script w
      = (Ok tt, log (EvClose ws 1008) w).
Proof.
  intros pipeline iso db handshake ws token_list script w
         [-> | [-> | [token [more [-> Hnone]]]]];
    unfold websocket_endpoint; try reflexivity.
  now rewrite Hnone.
Qed.

(** A stranger's token in front of a valid one: only the first is read. *)
Lemma unauthenticated_connection_refused_witness :
  websocket_endpoint calm_pipeline plain_isoformat users None 4
    (Some ["mallory@example.com"; "student1@srm.edu.in"])
    [fair (Ok (frame "Hello everyone"))] (with_connections [1; 2])
  = (Ok tt, log (EvClose 4 1008) (with_connections [1; 2])).
Proof.
  apply (unauthenticated_connection_refused calm_pipeline plain_isoformat users
           None 4 (Some ["mallory@example.com"; "student1@srm.edu.in"])
           [fair (Ok (frame "Hello everyone"))] (with_connections [1; 2])).
  right. right. exists "mallory@example.com", ["student1@srm.edu.in"].
  split; reflexivity.
Defined.

(** [remove] takes the first occurrence out and leaves the rest in place. *)
Lemma list_remove_first (x : WebSocket) (before after : list WebSocket) :
  ~ In x before ->
  list_remove x (before ++ x :: after) = Some (before ++ after).
Proof.
  induction before as [| y before IH]; intro Hout; simpl.
  - now rewrite Nat.eqb_refl.
  - destruct (Nat.eqb_spec y x) as [-> | Hne].
    + exfalso. apply Hout. now left.
    + rewrite IH; [reflexivity |]. intro Hin. apply Hout. now right.
Qed.

(** X3. Unregistering a connection leaves every other connection in the
    registry, in the order they registered in. *)
Theorem disconnect_keeps_the_others :
  forall (ws : WebSocket) (before after : list WebSocket) (w : World),
    active_connections w = before ++ ws :: after ->
    ~ In ws before ->
    disconnect ws w = (Ok tt, set_connections (before ++ after) w).
Proof.
  intros ws before after w Hconns Hout.
  unfold disconnect, bind, gets, modify.
  rewrite Hconns.
  rewrite (proj2 (list_in_In ws (before ++ ws :: after)))
    by (apply in_or_app; right; now left).
  now rewrite list_remove_first.
Qed.

Lemma disconnect_keeps_the_others_witness :
  disconnect 2 (with_connections [1; 2; 3; 4])
    = (Ok tt, set_connections ([1] ++ [3; 4]) (with_connections [1; 2; 3; 4])).
Proof.
  apply (disconnect_keeps_the_others 2 [1] [3; 4] (with_connections [1; 2; 3; 4])).
  - reflexivity.
  - simpl. intuition discriminate.
Defined.

(** X2. The registry brackets a session.  For a valid token, a handshake
    that succeeds and a websocket not yet registered: while the session
    waits for a frame its connection is the last entry of the registry and
    its database session is open; when the endpoint has returned, the
    registry is exactly what it was before the session and the database
    session is closed; and when an exception has left the endpoint, the
    database session is closed but the connection is still registered. *)
Theorem session_brackets_registry :
  forall (pipeline : string -> result sentiment) (iso : datetime -> string)
         (fake_users_db : list (string * user)) (token : string)
         (more : list string) (u : user) (ws : WebSocket)
         (script : list Env) (w : World),
    fake_decode_token fake_users_db token = Some u ->
    ~ In ws (active_connections w) ->
    forall (r : result unit) (w' : World),
      websocket_endpoint pipeline iso fake_users_db None ws
        (Some (token :: more)) script w = (r, w') ->
      match r with
      | Blocked =>
          active_connections w' = active_connections w ++ [ws] /\
          db_open w' = true
      | Ok _ =>
          active_connections w' = active_connections w /\ db_open w' = false
      | Raise e =>
          active_connections w' = active_connections w ++ [ws] /\
          db_open w' = false /\ e <> WebSocketDisconnect
      end.
Proof.
  intros pipeline iso db token more u ws script w Huser Hfresh r w' Hrun.
  unfold websocket_endpoint in Hrun. rewrite Huser in Hrun.
  unfold bind at 1 in Hrun. rewrite connect_run in Hrun.
  unfold bind at 1 in Hrun. unfold SessionLocal, bind, emit, modify in Hrun.
  unfold try_finally, try_except_disconnect in Hrun.
  match type of Hrun with
  | context [receive_loop pipeline iso script ws u ?w0] =>
      pose proof (receive_loop_changes pipeline iso script ws u w0)
        as [Hconns [Hopen _]];
      pose proof (receive_loop_never_returns pipeline iso script ws u w0) as Hnever;
      destruct (receive_loop pipeline iso script ws u w0) as [r1 w1]
  end.
  simpl in Hconns, Hopen, Hnever.
  destruct r1 as [[] | e |].
  - now contradiction Hnever.
  - destruct e;
      try (injection Hrun as <- <-; simpl;
           repeat split; [exact Hconns | discriminate]).
    assert (Hdis : disconnect ws w1
                   = (Ok tt, set_connections (active_connections w ++ []) w1))
      by (apply disconnect_keeps_the_others; assumption).
    rewrite Hdis in Hrun. injection Hrun as <- <-. simpl.
    now rewrite app_nil_r.
  - injection Hrun as <- <-. split; assumption.
Qed.

(** One session that is still waiting, one that a disconnect has ended, one
    that a frame without JSON has ended. *)
Lemma session_brackets_registry_witness :
  (active_connections
     (snd (websocket_endpoint calm_pipeline plain_isoformat users None 3
             (Some ["student1@srm.edu.in"]) [fair (Ok (frame "Hello everyone"))]
             (with_connections [1; 2]))) = [1; 2; 3]) /\
  (active_connections
     (snd (websocket_endpoint calm_pipeline plain_isoformat users None 3
             (Some ["student1@srm.edu.in"])
             [fair (Ok (frame "Hello everyone")); fair (Raise WebSocketDisconnect)]
             (with_connections [1; 2]))) = [1; 2]) /\
  (active_connections
     (snd (websocket_endpoint calm_pipeline plain_isoformat users None 3
             (Some ["student1@srm.edu.in"]) [fair (Raise JSONDecodeError)]
             (with_connections [1; 2]))) = [1; 2; 3]).
Proof.
  assert (Hfresh : ~ In 3 (active_connections (with_connections [1; 2])))
    by (simpl; intuition discriminate).
  split; [| split].
  - pose proof (session_brackets_registry calm_pipeline plain_isoformat users
                  "student1@srm.edu.in" [] alice 3
                  [fair (Ok (frame "Hello everyone"))] (with_connections [1; 2])
                  eq_refl Hfresh) as H.
    destruct (websocket_endpoint calm_pipeline plain_isoformat users None 3
                (Some ["student1@srm.edu.in"])
                [fair (Ok (frame "Hello everyone"))] (with_connections [1; 2]))
      as [r w'] eqn:Hrun.
    specialize (H r w' eq_refl).
    vm_compute in Hrun. injection Hrun as <- <-. exact (proj1 H).
  - pose proof (session_brackets_registry calm_pipeline plain_isoformat users
                  "student1@srm.edu.in" [] alice 3
                  [fair (Ok (frame "Hello everyone"));
                   fair (Raise WebSocketDisconnect)] (with_connections [1; 2])
                  eq_refl Hfresh) as H.
    destruct (websocket_endpoint calm_pipeline plain_isoformat users None 3
                (Some ["student1@srm.edu.in"])
                [fair (Ok (frame "Hello everyone"));
                 fair (Raise WebSocketDisconnect)] (with_connections [1; 2]))
      as [r w'] eqn:Hrun.
    specialize (H r w' eq_refl).
    vm_compute in Hrun. injection Hrun as <- <-. exact (proj1 H).
  - pose proof (session_brackets_registry calm_pipeline plain_isoformat users
                  "student1@srm.edu.in" [] alice 3
                  [fair (Raise JSONDecodeError)] (with_connections [1; 2])
                  eq_refl Hfresh) as H.
    destruct (websocket_endpoint calm_pipeline plain_isoformat users None 3
                (Some ["student1@srm.edu.in"])
                [fair (Raise JSONDecodeError)] (with_connections [1; 2]))
      as [r w'] eqn:Hrun.
    specialize (H r w' eq_refl).
    vm_compute in Hrun. injection Hrun as <- <-. exact (proj1 H).
Defined.

(** ** Broadcasting *)

Lemma delivered_others (c : WebSocket) (m : wire) (conns : list WebSocket) :
  ~ In c conns -> delivered c (map (sent_to m) conns) = [].
Proof.
  induction conns as [| d conns IH]; intro Hout; simpl; [reflexivity |].
  destruct (Nat.eqb_spec d c) as [-> | _].
  - exfalso. apply Hout. now left.
  - apply IH. intro Hin. apply Hout. now right.
Qed.

Lemma delivered_once (c : WebSocket) (m : wire) (conns : list WebSocket) :
  NoDup conns -> In c conns -> delivered c (map (sent_to m) conns) = [m].
Proof.
  induction conns as [| d conns IH]; intros Hnd Hin; simpl; [contradiction |].
  inversion Hnd as [| ? ? Hd Hrest]; subst.
  destruct (Nat.eqb_spec d c) as [-> | Hne].
  - now rewrite delivered_others.
  - destruct Hin as [-> | Hin]; [now contradiction Hne | now apply IH].
Qed.

Lemma filter_send_sent (m : wire) (conns : list WebSocket) :
  filter is_send (map (sent_to m) conns) = map (sent_to m) conns.
Proof.
  induction conns as [| c conns IH]; simpl; [reflexivity | now rewrite IH].
Qed.

(** X4. When every registered channel takes a send, a broadcast returns
    normally and leaves the registry as it is; the sends go out in
    registration order, one per entry of the registry, so that on a registry
    without repetition every registered connection, the sender's own
    included, receives the message exactly once, and nobody else receives
    anything. *)
Theorem broadcast_reaches_everyone :
  forall (env : Env) (message : message_entry) (w : World),
    (forall c, In c (active_connections w) -> channel env c = None) ->
    exists (evs : list event) (w' : World),
      broadcast env message w = (Ok tt, w') /\
      trace w' = trace w ++ EvBroadcast message :: evs /\
      filter is_send evs
        = map (sent_to (WMessage message)) (active_connections w) /\
      active_connections w' = active_connections w /\
      (forall c, ~ In c (active_connections w) -> delivered c evs = []) /\
      (NoDup (active_connections w) ->
       forall c, In c (active_connections w) ->
                 delivered c evs = [WMessage message]).
Proof.
  intros env message w Hok.
  exists (map (sent_to (WMessage message)) (active_connections w)).
  eexists. split; [now apply broadcast_delivers |].
  split; [reflexivity |]. split; [apply filter_send_sent |].
  split; [reflexivity |]. split.
  - intros c Hout. now apply delivered_others.
  - intros Hnd c Hin. now apply delivered_once.
Qed.

Lemma broadcast_reaches_everyone_witness :
  exists (evs : list event) (w' : World),
    broadcast (fair Blocked) hello (with_connections [1; 2; 3]) = (Ok tt, w') /\
    trace w' = trace (with_connections [1; 2; 3]) ++ EvBroadcast hello :: evs /\
    filter is_send evs = map (sent_to (WMessage hello)) [1; 2; 3] /\
    delivered 2 evs = [WMessage hello] /\
    delivered 7 evs = [].
Proof.
  destruct (broadcast_reaches_everyone (fair Blocked) hello
              (with_connections [1; 2; 3]) (fun c _ => eq_refl))
    as [evs [w' [Hrun [Htrace [Hsends [_ [Hnone Hone]]]]]]].
  exists evs, w'. repeat split; try assumption.
  - apply Hone.
    + simpl. repeat constructor; simpl; intuition discriminate.
    + simpl. tauto.
  - apply Hnone. simpl. intuition discriminate.
Defined.

(** X10. When a recipient's channel answers the broadcast's send with
    [WebSocketDisconnect], the sending session's own [except] clause
    catches it: the endpoint unregisters the sender, whose channel is in
    order, closes its database session and returns, while the recipient with
    the broken channel stays registered.  The message has been stored and
    has reached the recipients registered before the broken one. *)
Theorem recipient_disconnect_ends_sender :
  forall (pipeline : string -> result sentiment) (iso : datetime -> string)
         (fake_users_db : list (string * user)) (token : string)
         (more : list string) (u : user) (ws gone : WebSocket)
         (before after : list WebSocket) (env : Env) (rest : list Env)
         (data : json) (text : string) (w : World),
    fake_decode_token fake_users_db token = Some u ->
    active_connections w = before ++ gone :: after ->
    ~ In ws (active_connections w) ->
    (forall c, In c before -> channel env c = None) ->
    channel env gone = Some WebSocketDisconnect ->
    incoming env = Ok data ->
    get_content data = Ok (JStr text) ->
    moderation pipeline text = Ok false ->
    commit_fault env = None ->
    refresh_fault env = None ->
    exists w' : World,
      websocket_endpoint pipeline iso fake_users_db None ws
        (Some (token :: more)) (env :: rest) w = (Ok tt, w') /\
      active_connections w' = active_connections w /\
      In gone (active_connections w') /\
      ~ In ws (active_connections w') /\
      db_open w' = false /\
      chat_messages w' = chat_messages w ++ [accepted_entry iso env u text] /\
      map Message.content (messages w')
        = map Message.content (messages w) ++ [text] /\
      filter is_send (skipn (List.length (trace w)) (trace w'))
        = map (sent_to (WMessage (accepted_entry iso env u text))) before
          ++ [EvSendFailed gone (WMessage (accepted_entry iso env u text))
                WebSocketDisconnect].
Proof.
  intros pipeline iso db token more u ws gone before after env rest data text w
         Huser Hconns Hfresh Hok Hgone Hin Hget Hmod Hcommit Hrefresh.
  unfold websocket_endpoint. rewrite Huser.
  unfold bind at 1. rewrite connect_run.
  unfold bind at 1. unfold SessionLocal, bind at 1, emit, modify.
  unfold try_finally, try_except_disconnect.
  cbn [receive_loop]. unfold bind at 1.
  rewrite (loop_body_accepted pipeline iso env ws u data text _ Hin Hget Hmod).
  rewrite Hcommit, Hrefresh, broadcast_run.
  cbn [active_connections log log_all after_commit after_add after_memory
       set_db set_chat_messages set_connections].
  rewrite Hconns, <- app_assoc. cbn [app].
  rewrite (send_each_stops env _ before gone (after ++ [ws]) WebSocketDisconnect)
    by assumption.
  match goal with
  | |- context [disconnect ws ?w1] =>
      rewrite (disconnect_keeps_the_others ws (before ++ gone :: after) [] w1)
  end.
  - eexists. split; [reflexivity |].
    cbn [active_connections chat_messages messages db_open db_new trace
         log log_all set_db set_chat_messages set_connections
         accepted_row assign_ids].
    rewrite app_nil_r.
    repeat split.
    + apply in_or_app. right. now left.
    + now rewrite <- Hconns.
    + unfold after_commit, after_add, after_memory. simpl.
      rewrite map_app. reflexivity.
    + unfold after_commit, after_add, after_memory. simpl.
      rewrite <- !app_assoc. rewrite skipn_app, skipn_all, Nat.sub_diag.
      simpl. rewrite filter_app, filter_send_sent. reflexivity.
  - cbn [active_connections log log_all set_db set_chat_messages set_connections].
    now rewrite <- app_assoc.
  - now rewrite <- Hconns.
Qed.

(** Connection 3 sends "Hello everyone" while connection 2 has gone. *)
Lemma recipient_disconnect_ends_sender_witness :
  exists w' : World,
    websocket_endpoint calm_pipeline plain_isoformat users None 3
      (Some ["student1@srm.edu.in"])
      [with_disconnected 2 (Ok (frame "Hello everyone"))]
      (with_connections [1; 2]) = (Ok tt, w') /\
    active_connections w' = active_connections (with_connections [1; 2]) /\
    In 2 (active_connections w') /\
    ~ In 3 (active_connections w') /\
    db_open w' = false /\
    chat_messages w'
      = chat_messages (with_connections [1; 2]) ++
        [accepted_entry plain_isoformat
           (with_disconnected 2 (Ok (frame "Hello everyone"))) alice
           "Hello everyone"] /\
    map Message.content (messages w')
      = map Message.content (messages (with_connections [1; 2]))
        ++ ["Hello everyone"] /\
    filter is_send
      (skipn (List.length (trace (with_connections [1; 2]))) (trace w'))
      = map (sent_to (WMessage (accepted_entry plain_isoformat
                                  (with_disconnected 2 (Ok (frame "Hello everyone")))
                                  alice "Hello everyone"))) [1]
        ++ [EvSendFailed 2
              (WMessage (accepted_entry plain_isoformat
                           (with_disconnected 2 (Ok (frame "Hello everyone")))
                           alice "Hello everyone"))
              WebSocketDisconnect].
Proof.
  apply (recipient_disconnect_ends_sender calm_pipeline plain_isoformat users
           "student1@srm.edu.in" [] alice 3 2 [1] []
           (with_disconnected 2 (Ok (frame "Hello everyone"))) []
           (frame "Hello everyone") "Hello everyone" (with_connections [1; 2]));
    try reflexivity.
  - simpl. intuition discriminate.
  - intros c [<- | []]. reflexivity.
Defined.

(** ** Moderation in the loop *)

(** X5. An exception of the classifier is not handled: for a frame whose
    text contains no banned word, it leaves [loop_body] and ends the receive
    loop with the message neither stored, nor broadcast, nor answered. *)
Theorem classifier_failure_ends_loop :
  forall (pipeline : string -> result sentiment) (iso : datetime -> string)
         (env : Env) (ws : WebSocket) (u : user) (data : json)
         (text : string) (e : exn) (w : World),
    incoming env = Ok data ->
    get_content data = Ok (JStr text) ->
    any_banned banned_words (lower text) = false ->
    pipeline text = Raise e ->
    loop_body pipeline iso env ws u w
      = (Raise e, log_all [EvReceive ws; EvPipeline text] w) /\
    forall rest,
      receive_loop pipeline iso (env :: rest) ws u w
        = (Raise e, log_all [EvReceive ws; EvPipeline text] w).
Proof.
  intros pipeline iso env ws u data text e w Hin Hget Hban Hfail.
  assert (Hrun : loop_body pipeline iso env ws u w
                 = (Raise e, log_all [EvReceive ws; EvPipeline text] w)).
  { rewrite (loop_body_text pipeline iso env ws u data text w Hin Hget).
    unfold moderation, pipeline_calls. now rewrite Hban, Hfail. }
  split; [exact Hrun |].
  intro rest. simpl. unfold bind at 1. now rewrite Hrun.
Qed.

Definition failing_pipeline (text : string) : result sentiment :=
  Raise PipelineError.

Lemma classifier_failure_ends_loop_witness :
  loop_body failing_pipeline plain_isoformat (fair (Ok (frame "Hello everyone")))
    1 alice (with_connections [1; 2])
    = (Raise PipelineError,
       log_all [EvReceive 1; EvPipeline "Hello everyone"] (with_connections [1; 2])) /\
  forall rest,
    receive_loop failing_pipeline plain_isoformat
      (fair (Ok (frame "Hello everyone")) :: rest) 1 alice (with_connections [1; 2])
      = (Raise PipelineError,
         log_all [EvReceive 1; EvPipeline "Hello everyone"] (with_connections [1; 2])).
Proof.
  apply (classifier_failure_ends_loop failing_pipeline plain_isoformat
           (fair (Ok (frame "Hello everyone"))) 1 alice
           (frame "Hello everyone") "Hello everyone" PipelineError
           (with_connections [1; 2])); reflexivity.
Defined.

(** *** Banned words *)

Lemma prefix_append (word rest : string) :
  String.prefix word (word ++ rest) = true.
Proof.
  induction word as [| c word IH]; simpl.
  - now destruct rest.
  - destruct (ascii_dec c c) as [_ | Hne]; [exact IH | now contradiction Hne].
Qed.

Lemma str_in_prefix (word text : string) :
  String.prefix word text = true -> str_in word text = true.
Proof. intro H. destruct text; cbn [str_in]; now rewrite H. Qed.

Lemma str_in_append (word before after : string) :
  str_in word (before ++ word ++ after) = true.
Proof.
  induction before as [| c before IH].
  - change ("" ++ word ++ after)%string with (word ++ after)%string.
    apply str_in_prefix, prefix_append.
  - change (String c before ++ word ++ after)%string
      with (String c (before ++ word ++ after)%string).
    cbn [str_in]. rewrite IH.
    now destruct (String.prefix word (String c (before ++ word ++ after))).
Qed.

(** What [str_in] finds is an occurrence: the text splits around the word. *)
Lemma prefix_split (word text : string) :
  String.prefix word text = true -> exists after, text = (word ++ after)%string.
Proof.
  revert text. induction word as [| c word IH]; intros text H.
  - now exists text.
  - destruct text as [| d text]; [discriminate |]. simpl in H.
    destruct (ascii_dec c d) as [<- | _]; [| discriminate].
    destruct (IH text H) as [after ->]. now exists after.
Qed.

Lemma str_in_split (word text : string) :
  str_in word text = true ->
  exists before after, text = (before ++ word ++ after)%string.
Proof.
  induction text as [| c text IH]; cbn [str_in]; intro H.
  - destruct (String.prefix word "") eqn:Hp; [| discriminate].
    destruct (prefix_split word "" Hp) as [after Heq].
    exists "", after. exact Heq.
  - destruct (String.prefix word (String c text)) eqn:Hp.
    + destruct (prefix_split word _ Hp) as [after Heq].
      exists "", after. exact Heq.
    + destruct (IH H) as [before [after ->]].
      now exists (String c before), after.
Qed.

Lemma any_banned_exists (words : list string) (text : string) :
  any_banned words text = true <-> exists word, In word words /\ str_in word text = true.
Proof.
  induction words as [| word words IH]; simpl.
  - split; [discriminate | intros [? [[] _]]].
  - destruct (str_in word text) eqn:Hin.
    + split; [| reflexivity]. intros _. exists word. auto.
    + rewrite IH. split.
      * intros [x [Hx Hs]]. exists x. auto.
      * intros [x [[<- | Hx] Hs]]; [congruence | exists x; auto].
Qed.

Lemma lower_split (a b : string) :
  forall text, lower text = (a ++ b)%string ->
    exists ta tb, text = (ta ++ tb)%string /\ lower ta = a /\ lower tb = b.
Proof.
  induction a as [| c a IH]; intros text H.
  - exists "", text. auto.
  - destruct text as [| d text]; [discriminate |].
    simpl in H. injection H as Hc Hrest.
    destruct (IH text Hrest) as [ta [tb [-> [Ha Hb]]]].
    exists (String d ta), tb. simpl. now rewrite Hc, Ha.
Qed.

(** X6. The word list is matched as substrings of the lowercased text: the
    gate answers without the classifier, and rejects, exactly when the text
    is some text around the letters of "spam", "scam" or "advertisement" in
    upper or lower case, whatever stands before and after them, inside a
    longer word included. *)
Theorem banned_word_anywhere_any_case :
  forall (pipeline : string -> result sentiment) (text : string) (w : World),
    moderate_message pipeline text w = (Ok true, w) <->
    exists word hit before after,
      In word banned_words /\ lower hit = word /\
      text = (before ++ hit ++ after)%string.
Proof.
  intros pipeline text w. rewrite moderate_message_run. split.
  - intro Hrun. unfold moderation, pipeline_calls in Hrun.
    destruct (any_banned banned_words (lower text)) eqn:Hban.
    + apply any_banned_exists in Hban. destruct Hban as [word [Hword Hin]].
      apply str_in_split in Hin. destruct Hin as [lb [la Hsplit]].
      destruct (lower_split lb (word ++ la) text Hsplit)
        as [before [tail [-> [_ Htail]]]].
      destruct (lower_split word la tail Htail) as [hit [after [-> [Hhit _]]]].
      now exists word, hit, before, after.
    + exfalso. injection Hrun as _ Hw.
      apply (f_equal trace) in Hw. simpl in Hw.
      apply (f_equal (@List.length event)) in Hw.
      rewrite length_app in Hw. simpl in Hw. lia.
  - intros [word [hit [before [after [Hword [Hhit ->]]]]]].
    assert (Hban : any_banned banned_words (lower (before ++ hit ++ after)) = true).
    { apply any_banned_exists. exists word. split; [exact Hword |].
      rewrite !lower_append, Hhit. apply str_in_append. }
    unfold moderation, pipeline_calls. rewrite Hban. now rewrite log_all_nil.
Qed.

Lemma banned_word_anywhere_any_case_witness :
  moderate_message calm_pipeline "Fresh SCAMpi today" empty_world
    = (Ok true, empty_world).
Proof.
  apply (proj2 (banned_word_anywhere_any_case calm_pipeline
                  "Fresh SCAMpi today" empty_world)).
  exists "scam", "SCAM", "Fresh ", "pi today".
  split; [simpl; tauto | split; reflexivity].
Defined.

(** ** Who a message is from *)

Section Authorship.

Variable pipeline : string -> result sentiment.
Variable iso : datetime -> string.
Variable name : string.

Let pending (w : World) : Prop :=
  Forall (fun r => new_sender r = name) (db_new w).

Lemma written_by_refl (w : World) : pending w -> written_by name w w.
Proof.
  intro Hp. repeat split; try (exists []; now rewrite app_nil_r).
  exact Hp.
Qed.

Lemma written_by_trans (w1 w2 w3 : World) :
  written_by name w1 w2 -> written_by name w2 w3 -> written_by name w1 w3.
Proof.
  intros [[m1 [Hm1 Hf1]] [[r1 [Hr1 Hg1]] [[e1 [He1 Hh1]] _]]]
         [[m2 [Hm2 Hf2]] [[r2 [Hr2 Hg2]] [[e2 [He2 Hh2]] Hp]]].
  split; [| split; [| split]].
  - exists (m1 ++ m2). rewrite Hm2, Hm1, app_assoc. split; [reflexivity |].
    now apply Forall_app.
  - exists (r1 ++ r2). rewrite Hr2, Hr1, app_assoc. split; [reflexivity |].
    now apply Forall_app.
  - exists (e1 ++ e2). rewrite He2, He1, app_assoc. split; [reflexivity |].
    now apply Forall_app.
  - exact Hp.
Qed.

Lemma written_by_log (evs : list event) (w : World) :
  Forall (names_sender name) evs -> pending w ->
  written_by name w (log_all evs w).
Proof.
  intros Hevs Hp. split; [| split; [| split]]; simpl.
  - exists []. now rewrite app_nil_r.
  - exists []. now rewrite app_nil_r.
  - now exists evs.
  - exact Hp.
Qed.

Lemma send_each_written (env : Env) (m : wire) (conns : list WebSocket) :
  match m with WMessage e => sender e = name | WError _ => True end ->
  forall w : World,
    pending w -> written_by name w (snd (send_each env conns m w)).
Proof.
  intro Hm. induction conns as [| c conns IH]; intros w Hp; simpl.
  - now apply written_by_refl.
  - unfold bind at 1, send_json. destruct (channel env c) as [e |]; simpl.
    + apply (written_by_log [EvSendFailed c m e]); [| exact Hp].
      constructor; [| constructor]. now destruct m.
    + eapply written_by_trans; [| apply IH; exact Hp].
      apply (written_by_log [EvSent c m]); [| exact Hp].
      constructor; [| constructor]. now destruct m.
Qed.

Lemma assign_ids_sender (new : list new_message) :
  forall n : nat,
    Forall (fun r => new_sender r = name) new ->
    Forall (fun r => Message.sender r = name) (assign_ids n new).
Proof.
  induction new as [| r new IH]; intros n Hnew; simpl; [constructor |].
  inversion Hnew as [| ? ? Hr Hrest]. constructor; [exact Hr | now apply IH].
Qed.

Lemma pipeline_calls_anonymous (text : string) :
  Forall (names_sender name) (pipeline_calls text).
Proof.
  unfold pipeline_calls. destruct (any_banned banned_words (lower text));
    repeat constructor.
Qed.

Lemma loop_body_written (env : Env) (ws : WebSocket) (u : user) (w : World) :
  full_name u = name ->
  pending w ->
  written_by name w (snd (loop_body pipeline iso env ws u w)).
Proof.
  intros Hname Hp.
  destruct (incoming env) as [data | e |] eqn:Hin;
    try (unfold loop_body, receive_json, bind, emit, lift; rewrite Hin; simpl;
         apply (written_by_log [EvReceive ws]); [repeat constructor | exact Hp]).
  destruct (get_content data) as [[| | | | text | |] | e |] eqn:Hget;
    try (unfold loop_body, receive_json, bind, emit, lift; rewrite Hin, Hget; simpl;
         apply (written_by_log [EvReceive ws]); [repeat constructor | exact Hp]).
  assert (Hpre : written_by name w
                   (log_all (EvReceive ws :: pipeline_calls text) w)).
  { apply written_by_log; [| exact Hp].
    constructor; [exact I | apply pipeline_calls_anonymous]. }
  destruct (moderation pipeline text) as [[|] | e |] eqn:Hmod;
    [ rewrite (loop_body_text pipeline iso env ws u data text w Hin Hget), Hmod
    | idtac
    | rewrite (loop_body_text pipeline iso env ws u data text w Hin Hget), Hmod;
      exact Hpre
    | rewrite (loop_body_text pipeline iso env ws u data text w Hin Hget), Hmod;
      exact Hpre ].
  - unfold send_json. destruct (channel env ws) as [e |]; simpl.
    + eapply written_by_trans; [exact Hpre |].
      apply (written_by_log [EvSendFailed ws flagged_feedback e]);
        [repeat constructor | exact Hp].
    + eapply written_by_trans; [exact Hpre |].
      apply (written_by_log [EvSent ws flagged_feedback]);
        [repeat constructor | exact Hp].
  - rewrite (loop_body_accepted pipeline iso env ws u data text w Hin Hget Hmod).
    assert (Hrow : Forall (fun r => new_sender r = name)
                     (db_new w ++ [accepted_row env u text])).
    { apply Forall_app. split; [exact Hp |]. now repeat constructor. }
    assert (Hadd : written_by name w (after_add iso env ws u text w)).
    { split; [| split; [| split]]; simpl.
      - exists [accepted_entry iso env u text]. split; [reflexivity |].
        now repeat constructor.
      - exists []. now rewrite app_nil_r.
      - eexists. rewrite <- app_assoc. split; [reflexivity |].
        now repeat constructor.
      - exact Hrow. }
    assert (Hcommit : written_by name w (after_commit iso env ws u text w)).
    { split; [| split; [| split]]; simpl.
      - exists [accepted_entry iso env u text]. split; [reflexivity |].
        now repeat constructor.
      - eexists. split; [reflexivity |]. now apply assign_ids_sender.
      - eexists. rewrite <- !app_assoc. split; [reflexivity |].
        now repeat constructor.
      - constructor. }
    destruct (commit_fault env) as [e |]; simpl.
    + eapply written_by_trans; [exact Hadd |].
      apply (written_by_log [EvDbCommit false]); [repeat constructor |].
      exact Hrow.
    + destruct (refresh_fault env) as [e |]; simpl.
      * eapply written_by_trans; [exact Hcommit |].
        apply (written_by_log [EvDbRefresh false]); repeat constructor.
      * rewrite broadcast_run.
        eapply written_by_trans; [exact Hcommit |].
        eapply written_by_trans;
          [| apply send_each_written; [exact Hname | constructor]].
        unfold log. rewrite log_all_app.
        apply (written_by_log [EvDbRefresh true; EvBroadcast _]);
          [| constructor].
        now repeat constructor.
Qed.

Lemma receive_loop_written (script : list Env) (ws : WebSocket) (u : user) :
  full_name u = name ->
  forall w : World,
    pending w ->
    written_by name w (snd (receive_loop pipeline iso script ws u w)).
Proof.
  intro Hname. induction script as [| env script IH]; intros w Hp; simpl.
  - apply (written_by_log [EvReceive ws]); [repeat constructor | exact Hp].
  - unfold bind.
    pose proof (loop_body_written env ws u w Hname Hp) as Hbody.
    destruct (loop_body pipeline iso env ws u w) as [[[] | e |] w1]; simpl in *;
      try exact Hbody.
    eapply written_by_trans; [exact Hbody |].
    apply IH. now destruct Hbody as [_ [_ [_ Hp1]]].
Qed.

End Authorship.

(** The world in which an authenticated session enters its loop. *)
Definition session_start (ws : WebSocket) (w : World) : World :=
  let accepted :=
    set_connections (active_connections w ++ [ws]) (log (EvAccept ws) w) in
  set_db (messages (log EvSessionLocal accepted)) [] true
    (log EvSessionLocal accepted).

Lemma endpoint_authenticated (pipeline : string -> result sentiment)
    (iso : datetime -> string) (fake_users_db : list (string * user))
    (ws : WebSocket) (token : string) (more : list string) (u : user)
    (script : list Env) (w : World) :
  fake_decode_token fake_users_db token = Some u ->
  websocket_endpoint pipeline iso fake_users_db None ws
    (Some (token :: more)) script w
  = try_finally
      (try_except_disconnect (receive_loop pipeline iso script ws u)
         (disconnect ws))
      db_close (session_start ws w).
Proof.
  intro Huser. unfold websocket_endpoint. rewrite Huser. reflexivity.
Qed.

(** The [except] and [finally] clauses add at most the closing of the
    database session to what the loop has written. *)
Lemma handlers_frame (ws : WebSocket) (body : M unit) (w0 : World) :
  exists tail : list event,
    let w1 := snd (body w0) in
    let w' := snd (try_finally (try_except_disconnect body (disconnect ws))
                     db_close w0) in
    chat_messages w' = chat_messages w1 /\
    messages w' = messages w1 /\
    trace w' = trace w1 ++ tail /\
    (tail = [] \/ tail = [EvDbClose]).
Proof.
  unfold try_finally, try_except_disconnect.
  destruct (body w0) as [[[] | e |] w1]; simpl.
  - exists [EvDbClose]. auto.
  - destruct e; simpl; try (exists [EvDbClose]; now auto).
    destruct (disconnect_returns ws w1)
      as [w2 [Hdis [_ [_ [Hc [Hm [_ [_ Ht]]]]]]]].
    rewrite Hdis. simpl. rewrite Hc, Hm, Ht. exists [EvDbClose]. auto.
  - exists []. rewrite app_nil_r. auto.
Qed.

(** X7. The sender of a message is the authenticated user, whatever the
    client sends: every entry a session appends to [chat_messages], every
    row it stores and every message it broadcasts or delivers carries the
    [full_name] of the user the connection's token resolved to; a [sender]
    field in the payload is never read. *)
Theorem sender_is_authenticated_user :
  forall (pipeline : string -> result sentiment) (iso : datetime -> string)
         (fake_users_db : list (string * user)) (handshake : option exn)
         (ws : WebSocket) (token : string) (more : list string) (u : user)
         (script : list Env) (w : World),
    fake_decode_token fake_users_db token = Some u ->
    exists (entries : list message_entry) (rows : list Message.t)
           (evs : list event),
      let w' := snd (websocket_endpoint pipeline iso fake_users_db handshake ws
                       (Some (token :: more)) script w) in
      chat_messages w' = chat_messages w ++ entries /\
      Forall (fun e => sender e = full_name u) entries /\
      messages w' = messages w ++ rows /\
      Forall (fun r => Message.sender r = full_name u) rows /\
      trace w' = trace w ++ evs /\
      Forall (names_sender (full_name u)) evs.
Proof.
  intros pipeline iso db handshake ws token more u script w Huser. cbv zeta.
  destruct handshake as [e |].
  - unfold websocket_endpoint. rewrite Huser.
    exists [], [], []. simpl. rewrite !app_nil_r. repeat split; constructor.
  - rewrite (endpoint_authenticated pipeline iso db ws token more u script w Huser).
    destruct (handlers_frame ws (receive_loop pipeline iso script ws u)
                (session_start ws w)) as [tail [Hc [Hm [Ht Htail]]]].
    rewrite Hc, Hm, Ht.
    assert (Hstart : written_by (full_name u) w (session_start ws w)).
    { split; [| split; [| split]]; simpl.
      - exists []. now rewrite app_nil_r.
      - exists []. now rewrite app_nil_r.
      - eexists. rewrite <- app_assoc. split; [reflexivity |].
        repeat constructor.
      - constructor. }
    pose proof (receive_loop_written pipeline iso (full_name u) script ws u
                  eq_refl (session_start ws w) (proj2 (proj2 (proj2 Hstart))))
      as Hloop.
    destruct (written_by_trans (full_name u) _ _ _ Hstart Hloop)
      as [[en [Hen Hfe]] [[ro [Hro Hfr]] [[ev [Hev Hfv]] _]]].
    exists en, ro, (ev ++ tail). rewrite Hen, Hro, Hev, app_assoc.
    repeat split; auto. apply Forall_app. split; [exact Hfv |].
    destruct Htail as [-> | ->]; repeat constructor.
Qed.

(** A payload that claims to be from somebody else. *)
Lemma sender_is_authenticated_user_witness :
  exists (entries : list message_entry) (rows : list Message.t)
         (evs : list event),
    let w' := snd (websocket_endpoint calm_pipeline plain_isoformat users None 1
                     (Some ["student1@srm.edu.in"])
                     [fair (Ok (JObj [("sender", JStr "Mallory");
                                      ("content", JStr "Hello everyone")]))]
                     empty_world) in
    chat_messages w' = chat_messages empty_world ++ entries /\
    Forall (fun e => sender e = full_name alice) entries /\
    messages w' = messages empty_world ++ rows /\
    Forall (fun r => Message.sender r = full_name alice) rows /\
    trace w' = trace empty_world ++ evs /\
    Forall (names_sender (full_name alice)) evs.
Proof.
  apply (sender_is_authenticated_user calm_pipeline plain_isoformat users None 1
           "student1@srm.edu.in" [] alice
           [fair (Ok (JObj [("sender", JStr "Mallory");
                            ("content", JStr "Hello everyone")]))]
           empty_world).
  reflexivity.
Defined.

(** ** The stored messages *)




(** ** Order of a sender's messages *)

(** The contents of the broadcasts in a stretch of the trace, in order. *)
Fixpoint broadcast_contents (evs : list event) : list string :=
  match evs with
  | [] => []
  | EvBroadcast m :: rest => content m :: broadcast_contents rest
  | _ :: rest => broadcast_contents rest
  end.

Lemma broadcast_contents_app (a b : list event) :
  broadcast_contents (a ++ b) = broadcast_contents a ++ broadcast_contents b.
Proof.
  induction a as [| e a IH]; simpl; [reflexivity |].
  destruct e; simpl; now rewrite ?IH.
Qed.

Lemma broadcast_contents_sent (m : wire) (conns : list WebSocket) :
  broadcast_contents (map (sent_to m) conns) = [].
Proof. induction conns as [| c conns IH]; simpl; auto. Qed.

(** X9. The messages of one connection keep their order.  When the frames
    of a session are messages the gate allows, with the database and all
    channels in order, the loop takes them one by one and then waits for the
    next: their contents are appended to [chat_messages], stored in the
    table and broadcast in exactly the order in which they arrived. *)
Theorem messages_keep_arrival_order :
  forall (pipeline : string -> result sentiment) (iso : datetime -> string)
         (ws : WebSocket) (u : user) (script : list Env) (texts : list string)
         (w : World),
    Forall2 (accepts pipeline) script texts ->
    db_new w = [] ->
    exists (w' : World) (evs : list event),
      receive_loop pipeline iso script ws u w = (Blocked, w') /\
      map content (chat_messages w') = map content (chat_messages w) ++ texts /\
      map Message.content (messages w')
        = map Message.content (messages w) ++ texts /\
      trace w' = trace w ++ evs /\
      broadcast_contents evs = texts.
Proof.
  intros pipeline iso ws u script texts w Hacc. revert w.
  induction Hacc as [| env text script texts Henv Hrest IH]; intros w Hnew.
  - exists (log (EvReceive ws) w), [EvReceive ws]. simpl.
    rewrite !app_nil_r. repeat split.
  - destruct Henv as [[data [Hin Hget]] [Hmod [Hcommit [Hrefresh Hchan]]]].
    cbn [receive_loop]. unfold bind at 1.
    rewrite (loop_body_accepted pipeline iso env ws u data text w Hin Hget Hmod).
    rewrite Hcommit, Hrefresh.
    rewrite broadcast_delivers by (intros; apply Hchan).
    match goal with
    | |- context [receive_loop pipeline iso script ws u ?w1] =>
        destruct (IH w1 eq_refl) as [w' [evs [Hrun [Hchat [Hrows [Htrace Hbc]]]]]]
    end.
    exists w'. eexists. split; [exact Hrun |].
    split; [| split; [| split]].
    + rewrite Hchat. simpl. rewrite map_app, <- app_assoc. reflexivity.
    + rewrite Hrows. simpl. rewrite Hnew. simpl.
      rewrite map_app, <- app_assoc. reflexivity.
    + rewrite Htrace. simpl. rewrite <- !app_assoc. reflexivity.
    + simpl. rewrite broadcast_contents_app, broadcast_contents_sent, Hbc.
      reflexivity.
Qed.

Lemma messages_keep_arrival_order_witness :
  exists (w' : World) (evs : list event),
    receive_loop calm_pipeline plain_isoformat
      [fair (Ok (frame "first")); fair (Ok (frame "second"));
       fair (Ok (frame "third"))] 1 alice (with_connections [1; 2])
      = (Blocked, w') /\
    map content (chat_messages w')
      = map content (chat_messages (with_connections [1; 2]))
        ++ ["first"; "second"; "third"] /\
    map Message.content (messages w')
      = map Message.content (messages (with_connections [1; 2]))
        ++ ["first"; "second"; "third"] /\
    trace w' = trace (with_connections [1; 2]) ++ evs /\
    broadcast_contents evs = ["first"; "second"; "third"].
Proof.
  apply (messages_keep_arrival_order calm_pipeline plain_isoformat 1 alice
           [fair (Ok (frame "first")); fair (Ok (frame "second"));
            fair (Ok (frame "third"))]
           ["first"; "second"; "third"] (with_connections [1; 2])).
  - repeat constructor; try (eexists; split; reflexivity).
  - reflexivity.
Defined.

(** ** Search, continued *)

Lemma lower_idempotent (s : string) : lower (lower s) = lower s.
Proof.
  induction s as [| c s IH]; simpl; [reflexivity |]. rewrite IH. f_equal.
  destruct c as [[] [] [] [] [] [] [] []]; reflexivity.
Qed.

(** X11. Search ignores letter case on both sides: two keywords that differ
    only in the case of their ASCII letters return the same messages, and a
    keyword returns the same messages as its lowercased form; a stored
    message is matched or not whatever the case of its content. *)
Theorem search_ignores_letter_case :
  forall (iso : datetime -> string) (fake_users_db : list (string * user))
         (token k1 k2 : string) (w : World),
    lower k1 = lower k2 ->
    search_messages iso fake_users_db token k1 w
      = search_messages iso fake_users_db token k2 w /\
    search_messages iso fake_users_db token (lower k1) w
      = search_messages iso fake_users_db token k1 w /\
    (forall c1 c2, lower c1 = lower c2 ->
       ilike c1 ("%" ++ k1 ++ "%") = ilike c2 ("%" ++ k2 ++ "%")).
Proof.
  intros iso db token k1 k2 w Hk.
  assert (Hpat : forall a b, lower a = lower b ->
            forall c, ilike c ("%" ++ a ++ "%") = ilike c ("%" ++ b ++ "%")).
  { intros a b Hab c. unfold ilike. rewrite !lower_append. now rewrite Hab. }
  assert (Hq : forall a b, lower a = lower b ->
            search_messages iso db token a w = search_messages iso db token b w).
  { intros a b Hab. unfold search_messages.
    destruct (fake_decode_token db token); [| reflexivity].
    unfold bind, gets, ret, lift, query_ilike.
    rewrite (select_where_ext _ _ (messages w)
               (fun msg => Hpat a b Hab (Message.content msg))).
    reflexivity. }
  split; [now apply Hq | split].
  - apply Hq. apply lower_idempotent.
  - intros c1 c2 Hc. rewrite (Hpat k1 k2 Hk). unfold ilike. now rewrite Hc.
Qed.

Lemma search_ignores_letter_case_witness :
  search_messages plain_isoformat users "student1@srm.edu.in" "HeLLo"
    (stored three_messages)
  = search_messages plain_isoformat users "student1@srm.edu.in" "hello"
      (stored three_messages).
Proof.
  apply (proj1 (search_ignores_letter_case plain_isoformat users
                  "student1@srm.edu.in" "HeLLo" "hello" (stored three_messages)
                  eq_refl)).
Defined.

(** A keyword that consists of percent signs only, the empty keyword
    included. *)
Fixpoint all_percent (s : string) : bool :=
  match s with
  | EmptyString => true
  | String c rest => Ascii.eqb c "%" && all_percent rest
  end.

Lemma like_all_percent (p : string) :
  all_percent p = true ->
  forall text, pattern_compare (String "%" p) text = true.
Proof.
  induction p as [| c p IH]; intros Hp text.
  - apply like_percent.
  - simpl in Hp. apply andb_true_iff in Hp. destruct Hp as [Hc Hrest].
    apply Ascii.eqb_eq in Hc. subst c.
    rewrite like_star. now rewrite IH.
Qed.

Lemma all_percent_append (a b : string) :
  all_percent a = true -> all_percent b = true -> all_percent (a ++ b) = true.
Proof.
  induction a as [| c a IH]; intros Ha Hb; simpl in *; [exact Hb |].
  apply andb_true_iff in Ha. destruct Ha as [Hc Ha].
  rewrite Hc. now apply IH.
Qed.

Lemma lower_all_percent (s : string) : all_percent s = true -> lower s = s.
Proof.
  induction s as [| c s IH]; intro H; simpl in *; [reflexivity |].
  apply andb_true_iff in H. destruct H as [Hc Hs].
  apply Ascii.eqb_eq in Hc. subst c. now rewrite IH.
Qed.

(** A run of percent signs holds no NUL and takes a byte per sign. *)
Lemma all_percent_plain (s : string) :
  all_percent s = true ->
  c_string s = s /\ utf8_length s = N.of_nat (String.length s).
Proof.
  induction s as [| c s IH]; intro H; [split; reflexivity |].
  simpl in H. apply andb_true_iff in H. destruct H as [Hc Hs].
  apply Ascii.eqb_eq in Hc. subst c. destruct (IH Hs) as [Hcs Hlen].
  split.
  - simpl. now rewrite Hcs.
  - cbn [utf8_length String.length]. rewrite Hlen, Nat2N.inj_succ.
    change (Nat.ltb (nat_of_ascii "%") 128) with true. cbv iota. lia.
Qed.

Lemma length_append (a b : string) :
  String.length (a ++ b) = String.length a + String.length b.
Proof. induction a as [| c a IH]; simpl; [reflexivity | now rewrite IH]. Qed.

(** What [%keyword%] does on every row when the keyword is a run of percent
    signs: it matches, up to 49998 signs, and is an error beyond. *)
Lemma ilike_all_percent (keyword column : string) :
  all_percent keyword = true ->
  ilike column ("%" ++ keyword ++ "%") =
    if N.ltb 49998 (N.of_nat (String.length keyword)) then None else Some true.
Proof.
  intro Hk.
  assert (Hall : all_percent ("%" ++ keyword ++ "%") = true)
    by (apply (all_percent_append "%"); [reflexivity |];
        apply all_percent_append; [exact Hk | reflexivity]).
  unfold ilike, like. rewrite (lower_all_percent _ Hall).
  destruct (all_percent_plain _ Hall) as [Hcs Hlen].
  rewrite Hcs, Hlen, !length_append. cbn [String.length].
  unfold SQLITE_MAX_LIKE_PATTERN_LENGTH.
  destruct (N.ltb_spec 49998 (N.of_nat (String.length keyword))) as [Hlong | Hshort].
  - replace (N.ltb 50000 _) with true by (symmetry; apply N.ltb_lt; lia).
    reflexivity.
  - replace (N.ltb 50000 _) with false by (symmetry; apply N.ltb_ge; lia).
    change ("%" ++ keyword ++ "%")%string with (String "%" (keyword ++ "%")%string).
    rewrite like_all_percent; [reflexivity |].
    apply all_percent_append; [exact Hk | reflexivity].
Qed.

Lemma select_where_all (condition : Message.t -> option bool)
    (rows : list Message.t) :
  (forall msg, condition msg = Some true) ->
  select_where condition rows = Ok rows.
Proof.
  intro Hc. induction rows as [| msg rows IH]; simpl; [reflexivity |].
  now rewrite Hc, IH.
Qed.

(** X12. An empty keyword, and any keyword of up to 49998 percent signs,
    selects nothing: an authenticated search with it returns every stored
    message, formatted, in table order, and changes nothing.  With more
    percent signs the pattern exceeds SQLite's limit of 50000 bytes: the
    search of a table that holds any row raises the query's error, and the
    search of an empty table returns the empty result. *)
Theorem search_without_keyword_returns_all :
  forall (iso : datetime -> string) (fake_users_db : list (string * user))
         (token keyword : string) (u : user) (w : World),
    fake_decode_token fake_users_db token = Some u ->
    all_percent keyword = true ->
    ((N.of_nat (String.length keyword) <= 49998)%N ->
     search_messages iso fake_users_db token keyword w
       = (Ok (map (format_result iso) (messages w)), w)) /\
    ((49998 < N.of_nat (String.length keyword))%N ->
     messages w <> [] ->
     search_messages iso fake_users_db token keyword w
       = (Raise SQLAlchemyError, w)) /\
    (messages w = [] ->
     search_messages iso fake_users_db token keyword w = (Ok [], w)).
Proof.
  intros iso db token keyword u w Huser Hk.
  unfold search_messages. rewrite Huser. unfold bind, gets, ret, lift, query_ilike.
  rewrite (select_where_ext _
             (fun _ => if N.ltb 49998 (N.of_nat (String.length keyword))
                       then None else Some true)
             (messages w)
             (fun msg => ilike_all_percent keyword (Message.content msg) Hk)).
  split; [| split].
  - intro Hshort.
    replace (N.ltb 49998 _) with false by (symmetry; apply N.ltb_ge; lia).
    now rewrite select_where_all.
  - intros Hlong Hrows.
    replace (N.ltb 49998 _) with true by (symmetry; apply N.ltb_lt; lia).
    destruct (messages w) as [| msg rows]; [now contradiction Hrows | reflexivity].
  - intros ->. reflexivity.
Qed.

Lemma search_without_keyword_returns_all_witness :
  search_messages plain_isoformat users "student1@srm.edu.in" "%%"
    (stored three_messages)
  = (Ok (map (format_result plain_isoformat) (messages (stored three_messages))),
     stored three_messages).
Proof.
  apply (proj1 (search_without_keyword_returns_all plain_isoformat users
                  "student1@srm.edu.in" "%%" alice (stored three_messages)
                  eq_refl eq_refl)).
  vm_compute. discriminate.
Defined.

(** ** Accounts: password login and Google sign-in *)

Lemma dict_get_In {V : Type} (d : list (string * V)) (key : string) (v : V) :
  dict_get d key = Some v -> In (key, v) d.
Proof.
  induction d as [| [k x] d IH]; simpl; [discriminate |].
  destruct (String.eqb_spec k key) as [-> | _].
  - intros [= ->]. now left.
  - intro H. right. now apply IH.
Qed.

Lemma dict_get_append {V : Type} (d : list (string * V)) (k key : string) (v : V) :
  dict_get (d ++ [(k, v)]) key =
    match dict_get d key with
    | Some x => Some x
    | None => if String.eqb k key then Some v else None
    end.
Proof.
  induction d as [| [k' x] d IH]; simpl; [reflexivity |].
  now destruct (String.eqb k' key).
Qed.

(** X13. A token that [login] issues is a valid credential.  [login]
    succeeds only for an address ending in "@srm.edu.in" that is a key of
    [fake_users_db] whose record holds exactly the submitted password; and
    when every record sits under its own username, the bearer token it
    returns is that address, and [get_current_user] resolves it to the same
    record. *)
Theorem login_token_is_accepted :
  forall (fake_users_db : list (string * user)) (email given : string)
         (issued : token_response),
    keyed_by_username fake_users_db ->
    login fake_users_db email given = Returned issued ->
    exists u : user,
      str_endswith "@srm.edu.in" email = true /\
      dict_get fake_users_db email = Some u /\
      password u = Some given /\
      issued = mkToken email "bearer" /\
      get_current_user fake_users_db (access_token issued) = Returned u.
Proof.
  intros db email given issued Hkeyed Hlogin.
  unfold login in Hlogin.
  destruct (str_endswith "@srm.edu.in" email) eqn:Hsrm; [| discriminate].
  simpl in Hlogin.
  destruct (dict_get db email) as [u |] eqn:Hget; [| discriminate].
  destruct (password u) as [p |] eqn:Hpw; [| discriminate].
  simpl in Hlogin.
  destruct (String.eqb_spec p given) as [-> | _]; [| discriminate].
  simpl in Hlogin. injection Hlogin as <-.
  assert (Hname : username u = email).
  { unfold keyed_by_username in Hkeyed. rewrite Forall_forall in Hkeyed.
    exact (Hkeyed (email, u) (dict_get_In db email u Hget)). }
  exists u. rewrite Hname. simpl.
  repeat split; auto.
  unfold get_current_user, fake_decode_token. now rewrite Hget.
Qed.

Lemma login_token_is_accepted_witness :
  exists u : user,
    str_endswith "@srm.edu.in" "student2@srm.edu.in" = true /\
    dict_get initial_users "student2@srm.edu.in" = Some u /\
    password u = Some "password2" /\
    mkToken "student2@srm.edu.in" "bearer"
      = mkToken "student2@srm.edu.in" "bearer" /\
    get_current_user initial_users
      (access_token (mkToken "student2@srm.edu.in" "bearer")) = Returned u.
Proof.
  apply (login_token_is_accepted initial_users "student2@srm.edu.in" "password2"
           (mkToken "student2@srm.edu.in" "bearer")).
  - unfold keyed_by_username. repeat constructor.
  - reflexivity.
Defined.

(** X15. Google sign-in never touches an account that is there: whatever
    the token exchange and the id token bring, every key of [fake_users_db]
    resolves to the same record afterwards, password and name included,
    also when the address that signs in already has an account; at most one
    record is added, at the end, and none when the handler fails. *)
Theorem google_sign_in_keeps_accounts :
  forall (fake_users_db : list (string * user)) (exchange : token_exchange)
         (id_token : option user_info),
    let out := auth_google_callback fake_users_db exchange id_token in
    (forall key u, dict_get fake_users_db key = Some u ->
                   dict_get (snd out) key = Some u) /\
    (exists added, snd out = fake_users_db ++ added /\ List.length added <= 1) /\
    ((forall r, fst out <> Returned r) -> snd out = fake_users_db).
Proof.
  intros db exchange id_token. cbv zeta.
  assert (Hsame : (forall key u, dict_get db key = Some u ->
                                 dict_get db key = Some u) /\
                  (exists added, db = db ++ added /\ List.length added <= 1))
    by (split; [auto | exists []; rewrite app_nil_r; auto]).
  destruct Hsame as [Hkeep Hadd].
  unfold auth_google_callback.
  destruct exchange as [| error | e]; simpl;
    try solve [split; [exact Hkeep | split; [exact Hadd | reflexivity]]].
  destruct id_token as [info |]; simpl;
    try solve [split; [exact Hkeep | split; [exact Hadd | reflexivity]]].
  destruct (info_email info) as [email |]; simpl;
    try solve [split; [exact Hkeep | split; [exact Hadd | reflexivity]]].
  destruct (str_endswith "@srm.edu.in" email); simpl;
    try solve [split; [exact Hkeep | split; [exact Hadd | reflexivity]]].
  destruct (dict_get db email) as [old |] eqn:Hold; simpl.
  - split; [exact Hkeep | split; [exact Hadd | reflexivity]].
  - split; [| split].
    + intros key u Hget. rewrite dict_get_append. now rewrite Hget.
    + eexists. split; [reflexivity | simpl; lia].
    + intro Hne. exfalso. apply (Hne _ eq_refl).
Qed.

(** X16. After a Google sign-in that succeeds, the address is a valid
    credential: it ends in "@srm.edu.in", it is the value of the
    [access_token] cookie and of the token in the redirect URL, and
    [get_current_user] resolves it, to the account that was already there
    under this address or else to a new one without a password.  The dict
    keeps every record under its own username and every key an SRM
    address. *)
Theorem google_sign_in_token_is_accepted :
  forall (fake_users_db fake_users_db' : list (string * user))
         (exchange : token_exchange) (id_token : option user_info)
         (r : redirect),
    auth_google_callback fake_users_db exchange id_token
      = (Returned r, fake_users_db') ->
    exists (info : user_info) (email : string) (u : user),
      exchange = TokenGranted /\ id_token = Some info /\
      info_email info = Some email /\
      str_endswith "@srm.edu.in" email = true /\
      r = mkRedirect ("/?token=" ++ email) "access_token" email /\
      get_current_user fake_users_db' email = Returned u /\
      (dict_get fake_users_db email = None ->
       u = mkUser email (info_name info) None) /\
      (forall old, dict_get fake_users_db email = Some old -> u = old) /\
      (keyed_by_username fake_users_db -> keyed_by_username fake_users_db') /\
      (srm_only fake_users_db -> srm_only fake_users_db').
Proof.
  intros db db' exchange id_token r Hrun.
  unfold auth_google_callback in Hrun.
  destruct exchange as [| error | e]; try discriminate.
  destruct id_token as [info |]; try discriminate.
  destruct (info_email info) as [email |] eqn:Hemail; try discriminate.
  destruct (str_endswith "@srm.edu.in" email) eqn:Hsrm; try discriminate.
  simpl in Hrun. injection Hrun as <- <-.
  destruct (dict_get db email) as [old |] eqn:Hold.
  - exists info, email, old.
    split; [reflexivity |]. split; [reflexivity |]. split; [exact Hemail |].
    split; [exact Hsrm |]. split; [reflexivity |].
    split; [unfold get_current_user, fake_decode_token; now rewrite Hold |].
    split; [intro Habs; congruence |].
    split; [intros o Ho; congruence |].
    split; auto.
  - exists info, email, (mkUser email (info_name info) None).
    split; [reflexivity |]. split; [reflexivity |]. split; [exact Hemail |].
    split; [exact Hsrm |]. split; [reflexivity |].
    split.
    { unfold get_current_user, fake_decode_token.
      rewrite dict_get_append, Hold. now rewrite String.eqb_refl. }
    split; [reflexivity |].
    split; [intros o Ho; congruence |].
    split.
    + intro Hk. apply Forall_app. split; [exact Hk | now repeat constructor].
    + intro Hs. apply Forall_app. split; [exact Hs | now repeat constructor].
Qed.

Definition carol_info : user_info :=
  mkInfo (Some "carol@srm.edu.in") "Carol".

Lemma google_sign_in_token_is_accepted_witness :
  exists (info : user_info) (email : string) (u : user),
    TokenGranted = TokenGranted /\ Some carol_info = Some info /\
    info_email info = Some email /\
    str_endswith "@srm.edu.in" email = true /\
    mkRedirect "/?token=carol@srm.edu.in" "access_token" "carol@srm.edu.in"
      = mkRedirect ("/?token=" ++ email) "access_token" email /\
    get_current_user
      (initial_users ++ [("carol@srm.edu.in", mkUser "carol@srm.edu.in" "Carol" None)])
      email = Returned u /\
    (dict_get initial_users email = None ->
     u = mkUser email (info_name info) None) /\
    (forall old, dict_get initial_users email = Some old -> u = old) /\
    (keyed_by_username initial_users ->
     keyed_by_username
       (initial_users ++ [("carol@srm.edu.in", mkUser "carol@srm.edu.in" "Carol" None)])) /\
    (srm_only initial_users ->
     srm_only
       (initial_users ++ [("carol@srm.edu.in", mkUser "carol@srm.edu.in" "Carol" None)])).
Proof.
  apply (google_sign_in_token_is_accepted initial_users
           (initial_users ++ [("carol@srm.edu.in", mkUser "carol@srm.edu.in" "Carol" None)])
           TokenGranted (Some carol_info)
           (mkRedirect "/?token=carol@srm.edu.in" "access_token" "carol@srm.edu.in")).
  reflexivity.
Defined.

(** X14. An account that Google sign-in has created has no password, and
    [login] refuses it whatever password is submitted, with status 400,
    while its address is accepted as a token everywhere. *)
Theorem google_account_has_no_password_login :
  forall (fake_users_db fake_users_db' : list (string * user))
         (exchange : token_exchange) (info : user_info) (email : string)
         (r : redirect),
    auth_google_callback fake_users_db exchange (Some info)
      = (Returned r, fake_users_db') ->
    info_email info = Some email ->
    dict_get fake_users_db email = None ->
    (forall given,
       login fake_users_db' email given
         = HTTPError 400 "Incorrect email or password") /\
    fake_decode_token fake_users_db' email
      = Some (mkUser email (info_name info) None).
Proof.
  intros db db' exchange info email r Hrun Hemail Hnew.
  unfold auth_google_callback in Hrun. rewrite Hemail in Hrun.
  destruct exchange as [| error | e]; try discriminate.
  destruct (str_endswith "@srm.edu.in" email) eqn:Hsrm; try discriminate.
  simpl in Hrun. rewrite Hnew in Hrun. injection Hrun as _ <-.
  assert (Hget : dict_get (db ++ [(email, mkUser email (info_name info) None)]) email
                 = Some (mkUser email (info_name info) None))
    by (rewrite dict_get_append, Hnew; now rewrite String.eqb_refl).
  split; [| exact Hget].
  intro given. unfold login. rewrite Hsrm. simpl. now rewrite Hget.
Qed.

Lemma google_account_has_no_password_login_witness :
  (forall given,
     login (initial_users ++ [("carol@srm.edu.in", mkUser "carol@srm.edu.in" "Carol" None)])
       "carol@srm.edu.in" given
     = HTTPError 400 "Incorrect email or password") /\
  fake_decode_token
    (initial_users ++ [("carol@srm.edu.in", mkUser "carol@srm.edu.in" "Carol" None)])
    "carol@srm.edu.in"
  = Some (mkUser "carol@srm.edu.in" (info_name carol_info) None).
Proof.
  apply (google_account_has_no_password_login initial_users
           (initial_users ++ [("carol@srm.edu.in", mkUser "carol@srm.edu.in" "Carol" None)])
           TokenGranted carol_info "carol@srm.edu.in"
           (mkRedirect "/?token=carol@srm.edu.in" "access_token" "carol@srm.edu.in"));
    reflexivity.
Defined.

(** Student One signs in with Google under the name "Somebody Else". *)
Lemma google_sign_in_keeps_accounts_witness :
  dict_get
    (snd (auth_google_callback initial_users TokenGranted
            (Some (mkInfo (Some "student1@srm.edu.in") "Somebody Else"))))
    "student1@srm.edu.in"
  = Some (mkUser "student1@srm.edu.in" "Student One" (Some "password1")).
Proof.
  apply (proj1 (google_sign_in_keeps_accounts initial_users TokenGranted
                  (Some (mkInfo (Some "student1@srm.edu.in") "Somebody Else")))).
  reflexivity.
Defined.
